(** * SignUp.tsx: validation and submission of the registration form

    A shallow embedding of [src/frontend/src/pages/SignUp.tsx]: the
    validators [validateEmpty] and [validatePassword], the change handler
    [validate], the submit handler [handleSubmit] and the [disabled]
    expression of the submit button.

    JavaScript strings are sequences of UTF-16 code units; the regular
    expression of [validatePassword] is run by a backtracking matcher written
    in the continuation style of the ECMAScript specification.  A handler is
    a function of the render snapshot (the values of [formData], [errors] and
    [isSubmitting] its closure captured) to the sequence of effects it
    performs; state setters REPLACE the slot they set, as React's [useState]
    setters do.  The last part follows the mounted page over sequences of
    events, with [handleSubmit] split at its [await]. *)

From Stdlib Require Import NArith List String Ascii Bool Arith Lia.
Import ListNotations.

Set Implicit Arguments.

(** ** JavaScript strings *)

Module JS.

(** A string value: its UTF-16 code units. *)
Definition jsstring := list N.

(** An ASCII literal of the source. *)
Definition lit (s : string) : jsstring :=
  List.map N_of_ascii (list_ascii_of_string s).

(** ToBoolean on a string: the empty string is the only falsy one. *)
Definition truthy (s : jsstring) : bool :=
  match s with
  | [] => false
  | _ :: _ => true
  end.

(** [a === b] on strings: the same sequence of code units. *)
Definition strict_eq (a b : jsstring) : bool :=
  if list_eq_dec N.eq_dec a b then true else false.

(** LineTerminator: LF, CR, LS (U+2028), PS (U+2029). *)
Definition isLineTerminator (c : N) : bool :=
  ((c =? 10) || (c =? 13) || (c =? 8232) || (c =? 8233))%N.

(** WhiteSpace: TAB, VT, FF, SP, NBSP, ZWNBSP and the category Zs. *)
Definition isWhiteSpace (c : N) : bool :=
  ((c =? 9) || (c =? 11) || (c =? 12) || (c =? 32) || (c =? 160)
   || (c =? 5760) || ((8192 <=? c) && (c <=? 8202))
   || (c =? 8239) || (c =? 8287) || (c =? 12288) || (c =? 65279))%N.

(** What [String.prototype.trim] strips. *)
Definition isTrimmable (c : N) : bool :=
  isWhiteSpace c || isLineTerminator c.

Fixpoint trimStart (s : jsstring) : jsstring :=
  match s with
  | [] => []
  | c :: t => if isTrimmable c then trimStart t else s
  end.

Definition trimEnd (s : jsstring) : jsstring :=
  rev (trimStart (rev s)).

Definition trim (s : jsstring) : jsstring :=
  trimEnd (trimStart s).

End JS.

Import JS.

(** ** Regular expressions

    The fragment of ECMAScript patterns that [passwordRegex] uses, without
    flags: assertions [^] and [$] (no multiline), character classes, a class
    under [*] or [{n,}], sequences and positive lookahead. *)

Module RegExp.

Definition charset := N -> bool.

Inductive pattern : Type :=
| Empty : pattern
| Seq : pattern -> pattern -> pattern
| AssertStart : pattern                    (* ^ *)
| AssertEnd : pattern                      (* $ *)
| Class : charset -> pattern               (* [...] , \d , . *)
| Star : charset -> pattern                (* c* *)
| AtLeast : nat -> charset -> pattern      (* c{n,} *)
| LookAhead : pattern -> pattern.          (* (?=...) *)

(** A continuation receives the end index and the rest of the input. *)
Definition continuation := nat -> jsstring -> bool.

(** Greedy [c*]: take one more character if possible, else continue; on
    failure of the continuation give the character back. *)
Fixpoint star (c : charset) (pos : nat) (rest : jsstring)
         (k : continuation) : bool :=
  match rest with
  | x :: t => (c x && star c (S pos) t k) || k pos rest
  | [] => k pos rest
  end.

(** [c{n,}]: [n] mandatory characters, then [c*]. *)
Fixpoint atLeast (n : nat) (c : charset) (pos : nat) (rest : jsstring)
         (k : continuation) : bool :=
  match n with
  | O => star c pos rest k
  | S n' =>
      match rest with
      | x :: t => c x && atLeast n' c (S pos) t k
      | [] => false
      end
  end.

Fixpoint matcher (p : pattern) (pos : nat) (rest : jsstring)
         (k : continuation) : bool :=
  match p with
  | Empty => k pos rest
  | Seq a b => matcher a pos rest (fun pos' rest' => matcher b pos' rest' k)
  | AssertStart => Nat.eqb pos 0 && k pos rest
  | AssertEnd => match rest with [] => k pos rest | _ :: _ => false end
  | Class c =>
      match rest with
      | x :: t => c x && k (S pos) t
      | [] => false
      end
  | Star c => star c pos rest k
  | AtLeast n c => atLeast n c pos rest k
  | LookAhead a => matcher a pos rest (fun _ _ => true) && k pos rest
  end.

(** RegExpBuiltinExec without the g and y flags: the first start index,
    from 0 upwards, at which the pattern matches. *)
Fixpoint execFrom (p : pattern) (pos : nat) (rest : jsstring) : bool :=
  matcher p pos rest (fun _ _ => true)
  || match rest with
     | _ :: t => execFrom p (S pos) t
     | [] => false
     end.

Definition test (p : pattern) (s : jsstring) : bool := execFrom p 0 s.

(** *** Character classes *)

Definition range (lo hi : N) : charset :=
  fun c => ((lo <=? c) && (c <=? hi))%N.
Definition union (a b : charset) : charset := fun c => a c || b c.
Definition complement (a : charset) : charset := fun c => negb (a c).
Definition single (x : N) : charset := fun c => (c =? x)%N.

Definition lower : charset := range 97 122.            (* a-z *)
Definition upper : charset := range 65 90.             (* A-Z *)
Definition digit : charset := range 48 57.             (* \d *)
Definition underscore : charset := single 95.          (* _ *)
Definition word : charset :=                           (* \w *)
  union lower (union upper (union digit underscore)).
Definition nonword : charset := complement word.       (* \W *)
Definition dot : charset := complement isLineTerminator. (* . *)

End RegExp.

Import RegExp.

(** ** The component *)

Definition REQUIRED : jsstring := lit "Required".
Definition PASSWORD_REQUIREMENTS_MISMATCH : jsstring :=
  lit "Password must contain at least 8 characters, one uppercase letter, one lowercase letter, and one number and special character".
Definition PASSWORDS_DO_NOT_MATCH : jsstring := lit "Passwords do not match".

(** [value.trim() ? "" : REQUIRED] *)
Definition validateEmpty (value : jsstring) : jsstring :=
  if truthy (trim value) then [] else REQUIRED.

(** [[\W_]] *)
Definition special : charset := union nonword underscore.

(** [[a-zA-Z\d\W_]] *)
Definition anyListed : charset :=
  union lower (union upper (union digit (union nonword underscore))).

(** [(?=.*c)] *)
Definition ahead (c : charset) : pattern :=
  LookAhead (Seq (Star dot) (Class c)).

(** [/^(?=.*[a-z])(?=.*[A-Z])(?=.*\d)(?=.*[\W_])[a-zA-Z\d\W_]{8,}$/] *)
Definition passwordRegex : pattern :=
  Seq AssertStart
   (Seq (ahead lower)
    (Seq (ahead upper)
     (Seq (ahead digit)
      (Seq (ahead special)
       (Seq (AtLeast 8 anyListed) AssertEnd))))).

Definition validatePassword (password : jsstring) : jsstring :=
  if negb (truthy (trim password)) then REQUIRED
  else if negb (test passwordRegex password) then PASSWORD_REQUIREMENTS_MISMATCH
  else [].

(** *** State of the component *)

Module FormData.
Record t : Type := mk {
  email : jsstring;
  password : jsstring;
  passwordValidate : jsstring
}.
End FormData.

(** [repeatPassword?: string] is optional: [None] is the absent property. *)
Module FormErrors.
Record t : Type := mk {
  email : jsstring;
  password : jsstring;
  repeatPassword : option jsstring;
  passwordValidate : jsstring
}.
End FormErrors.

(** [keyof FormData] *)
Module Field.
Inductive t : Type := email | password | passwordValidate.
End Field.

(** The three [useState] slots. *)
Record State : Type := mkState {
  formData : FormData.t;
  errors : FormErrors.t;
  isSubmitting : bool
}.

(** The state at mount. *)
Definition initial : State :=
  {| formData := FormData.mk [] [] [];
     errors := FormErrors.mk [] [] (Some []) [];
     isSubmitting := false |}.

(** [{...formData, [field]: value}] *)
Definition updateFormData (fd : FormData.t) (field : Field.t)
           (value : jsstring) : FormData.t :=
  match field with
  | Field.email =>
      FormData.mk value (FormData.password fd) (FormData.passwordValidate fd)
  | Field.password =>
      FormData.mk (FormData.email fd) value (FormData.passwordValidate fd)
  | Field.passwordValidate =>
      FormData.mk (FormData.email fd) (FormData.password fd) value
  end.

(** [{...errors, [field]: value}] *)
Definition updateErrors (e : FormErrors.t) (field : Field.t)
           (value : jsstring) : FormErrors.t :=
  match field with
  | Field.email =>
      FormErrors.mk value (FormErrors.password e)
                    (FormErrors.repeatPassword e) (FormErrors.passwordValidate e)
  | Field.password =>
      FormErrors.mk (FormErrors.email e) value
                    (FormErrors.repeatPassword e) (FormErrors.passwordValidate e)
  | Field.passwordValidate =>
      FormErrors.mk (FormErrors.email e) (FormErrors.password e)
                    (FormErrors.repeatPassword e) value
  end.

(** [{...errors, repeatPassword: value}] *)
Definition updateRepeatPassword (e : FormErrors.t) (value : jsstring)
  : FormErrors.t :=
  FormErrors.mk (FormErrors.email e) (FormErrors.password e)
                (Some value) (FormErrors.passwordValidate e).

(** *** Effects *)

(** The response of [register]: [message] is absent or a string. *)
Record Response : Type := mkResponse { message : option jsstring }.

(** How the awaited promise of [register] settles. *)
Inductive Settled : Type :=
| Fulfilled : Response -> Settled
| Rejected : Settled.

(** ToBoolean of [response.message]: [undefined] and [""] are falsy. *)
Definition messageTruthy (r : Response) : bool :=
  match message r with
  | Some m => truthy m
  | None => false
  end.

(** [response.message as string], read where it is truthy. *)
Definition messageText (r : Response) : jsstring :=
  match message r with
  | Some m => m
  | None => []
  end.

(** What a handler does, in program order: calls of the state setters and
    of the collaborators ([register], [toast], [history]). *)
Inductive Effect : Type :=
| PreventDefault : Effect
| SetFormData : FormData.t -> Effect
| SetErrors : FormErrors.t -> Effect
| SetIsSubmitting : bool -> Effect
| Register : jsstring -> jsstring -> Effect       (* register({email, password}) *)
| ToastError : jsstring -> Effect
| ToastSuccess : jsstring -> Effect
| HistoryPush : jsstring -> Effect.

(** A setter replaces its slot; the other effects leave the state alone. *)
Definition applyEffect (s : State) (e : Effect) : State :=
  match e with
  | SetFormData fd => mkState fd (errors s) (isSubmitting s)
  | SetErrors er => mkState (formData s) er (isSubmitting s)
  | SetIsSubmitting b => mkState (formData s) (errors s) b
  | _ => s
  end.

Definition run (s : State) (tr : list Effect) : State :=
  fold_left applyEffect tr s.

(** *** Handlers *)

(** [validate(field, value)], on [onChange] and [onBlur] of the inputs. *)
Definition validate (snap : State) (field : Field.t) (value : jsstring)
  : list Effect :=
  SetFormData (updateFormData (formData snap) field value) ::
  match field with
  | Field.email =>
      [SetErrors (updateErrors (errors snap) field (validateEmpty value))]
  | _ =>
      let isPasswordField :=
        match field with Field.password => true | _ => false end in
      let passwordsMatch :=
        if isPasswordField
        then strict_eq value (FormData.passwordValidate (formData snap))
        else strict_eq value (FormData.password (formData snap)) in
      [SetErrors
         (updateRepeatPassword
            (updateErrors (errors snap) field (validateEmpty value))
            (if passwordsMatch then [] else PASSWORDS_DO_NOT_MATCH))]
  end.

(** The three errors [handleSubmit] computes from [formData]. *)
Definition emailError (fd : FormData.t) : jsstring :=
  validateEmpty (FormData.email fd).

Definition passwordError (fd : FormData.t) : jsstring :=
  validatePassword (FormData.password fd).

Definition passwordValidateError (fd : FormData.t) : jsstring :=
  if negb (truthy (trim (FormData.passwordValidate fd))) then REQUIRED
  else if negb (strict_eq (FormData.password fd) (FormData.passwordValidate fd))
       then PASSWORDS_DO_NOT_MATCH
       else [].

(** The object literal given to [setErrors]: no [repeatPassword]. *)
Definition submitErrors (fd : FormData.t) : FormErrors.t :=
  FormErrors.mk (emailError fd) (passwordError fd) None
                (passwordValidateError fd).

Section Submission.

(** The collaborator [register] of [../helpers/api], as the way its promise
    settles for given credentials.  [toast] and [history] do not throw. *)
Variable register : jsstring -> jsstring -> Settled.

Definition handleSubmit (snap : State) : list Effect :=
  let email := FormData.email (formData snap) in
  let password := FormData.password (formData snap) in
  PreventDefault ::
  SetErrors (submitErrors (formData snap)) ::
  if truthy (emailError (formData snap))
     || truthy (passwordError (formData snap))
     || truthy (passwordValidateError (formData snap))
  then []
  else
    SetIsSubmitting true ::
    Register email password ::
    match register email password with
    | Fulfilled response =>
        if messageTruthy response
        then [ToastError (messageText response)]
        else [ToastSuccess (lit "Registered successfully");
              HistoryPush (lit "/login")]
    | Rejected =>
        [ToastError (lit "An error occurred while registering")]
    end ++ [SetIsSubmitting false].

End Submission.

(** [disabled] of the submit button. *)
Definition disabled (s : State) : bool :=
  isSubmitting s
  || truthy (FormErrors.email (errors s))
  || truthy (FormErrors.password (errors s))
  || truthy (FormErrors.passwordValidate (errors s)).

(** *** Events of the component *)

Inductive Event : Type :=
| Change : Field.t -> jsstring -> Event    (* onChange, onBlur *)
| Submit : Event.

Definition handler (register : jsstring -> jsstring -> Settled)
           (snap : State) (ev : Event) : list Effect :=
  match ev with
  | Change field value => validate snap field value
  | Submit => handleSubmit register snap
  end.

(** One event run to completion on the current state: the setters of its
    trace applied in order.  For [Submit] the awaited call is taken to settle
    before the next event is handled. *)
Definition step (register : jsstring -> jsstring -> Settled)
           (s : State) (ev : Event) : State :=
  run s (handler register s ev).

(** *** Observations on a trace *)

Inductive Notification : Type :=
| NError : jsstring -> Notification
| NSuccess : jsstring -> Notification.

Fixpoint notifications (tr : list Effect) : list Notification :=
  match tr with
  | [] => []
  | ToastError m :: t => NError m :: notifications t
  | ToastSuccess m :: t => NSuccess m :: notifications t
  | _ :: t => notifications t
  end.

Fixpoint navigations (tr : list Effect) : list jsstring :=
  match tr with
  | [] => []
  | HistoryPush p :: t => p :: navigations t
  | _ :: t => navigations t
  end.

Fixpoint registrations (tr : list Effect) : list (jsstring * jsstring) :=
  match tr with
  | [] => []
  | Register e p :: t => (e, p) :: registrations t
  | _ :: t => registrations t
  end.

(** ** The password policy in the words of the specification

    At least 8 characters, a lowercase letter, an uppercase letter, a digit
    and a character outside [A-Za-z0-9], anywhere in the string. *)

Definition alnum : charset := union lower (union upper digit).

Definition meetsPolicy (s : jsstring) : bool :=
  (8 <=? List.length s)
  && existsb lower s
  && existsb upper s
  && existsb digit s
  && existsb (complement alnum) s.

(** The part of the string [.] can run over from index 0. *)
Fixpoint firstLine (s : jsstring) : jsstring :=
  match s with
  | [] => []
  | c :: t => if dot c then c :: firstLine t else []
  end.

(** What [passwordRegex] accepts. *)
Definition regexPolicy (s : jsstring) : bool :=
  (8 <=? List.length s)
  && existsb lower (firstLine s)
  && existsb upper (firstLine s)
  && existsb digit (firstLine s)
  && existsb (complement alnum) s.

(** Where [.*c] can succeed from the head of the input. *)
Fixpoint reach (c : charset) (s : jsstring) : bool :=
  match s with
  | [] => false
  | x :: t => (dot x && reach c t) || c x
  end.

(** The continuation of [$] at the end of a pattern. *)
Definition atEnd : continuation :=
  fun _ rest => match rest with [] => true | _ :: _ => false end.

(** [errors.repeatPassword && <em>...</em>]: whether the mismatch message is
    rendered, that is whether the field is a non-empty string. *)
Definition repeatPasswordShown (e : FormErrors.t) : bool :=
  match FormErrors.repeatPassword e with
  | Some m => truthy m
  | None => false
  end.

(** [{...errors, repeatPassword: m}], [m] possibly absent. *)
Definition withRepeatPassword (e : FormErrors.t) (m : option jsstring)
  : FormErrors.t :=
  FormErrors.mk (FormErrors.email e) (FormErrors.password e) m
                (FormErrors.passwordValidate e).

(** A form whose three submit-time errors are all empty. *)
Definition submittable (fd : FormData.t) : Prop :=
  emailError fd = [] /\ passwordError fd = [] /\ passwordValidateError fd = [].

(** A filled-in form and two settlements of [register], for the examples. *)
Definition filledForm : FormData.t :=
  FormData.mk (lit "a@b.com") (lit "Abc12345!") (lit "Abc12345!").

Definition resolvesPlain : jsstring -> jsstring -> Settled :=
  fun _ _ => Fulfilled (mkResponse None).

Definition resolvesWith (m : jsstring) : jsstring -> jsstring -> Settled :=
  fun _ _ => Fulfilled (mkResponse (Some m)).

Definition rejects : jsstring -> jsstring -> Settled :=
  fun _ _ => Rejected.

(** *** [handleSubmit] around its [await]

    An [async] function runs up to its [await] within the event that called
    it; the rest runs when the promise settles, after whatever events were
    handled in between. *)

(** Whether [handleSubmit] gets past its early [return]. *)
Definition passesValidation (fd : FormData.t) : bool :=
  negb (truthy (emailError fd)
        || truthy (passwordError fd)
        || truthy (passwordValidateError fd)).

(** [handleSubmit] up to and including the call of [register]. *)
Definition handleSubmitSync (snap : State) : list Effect :=
  let email := FormData.email (formData snap) in
  let password := FormData.password (formData snap) in
  PreventDefault ::
  SetErrors (submitErrors (formData snap)) ::
  if truthy (emailError (formData snap))
     || truthy (passwordError (formData snap))
     || truthy (passwordValidateError (formData snap))
  then []
  else [SetIsSubmitting true; Register email password].

(** [handleSubmit] from the settlement of the awaited promise on: the body
    of [try] after the [await], or [catch], and then [finally]. *)
Definition handleSubmitResume (settled : Settled) : list Effect :=
  match settled with
  | Fulfilled response =>
      if messageTruthy response
      then [ToastError (messageText response)]
      else [ToastSuccess (lit "Registered successfully");
            HistoryPush (lit "/login")]
  | Rejected => [ToastError (lit "An error occurred while registering")]
  end ++ [SetIsSubmitting false].

(** The mounted page: the component state, the number of [register] calls
    not yet settled, and every effect performed so far. *)
Record Page : Type := mkPage {
  ui : State;
  pending : nat;
  log : list Effect
}.

Definition mounted : Page := mkPage initial 0 [].

Inductive PageEvent : Type :=
| Edit : Field.t -> jsstring -> PageEvent    (* onChange or onBlur of an input *)
| PressSubmit : PageEvent                    (* onSubmit of the form *)
| Settle : Settled -> PageEvent.             (* a pending call settles *)

(** One event on the page, [None] when it cannot occur: the form is not
    submitted through a submit button that is [disabled], and only a pending
    call can settle. *)
Definition pageNext (p : Page) (ev : PageEvent) : option Page :=
  match ev with
  | Edit field value =>
      let tr := validate (ui p) field value in
      Some (mkPage (run (ui p) tr) (pending p) (log p ++ tr))
  | PressSubmit =>
      if disabled (ui p) then None
      else
        let tr := handleSubmitSync (ui p) in
        Some (mkPage (run (ui p) tr)
                     (pending p + List.length (registrations tr))
                     (log p ++ tr))
  | Settle settled =>
      match pending p with
      | O => None
      | S n =>
          let tr := handleSubmitResume settled in
          Some (mkPage (run (ui p) tr) n (log p ++ tr))
      end
  end.

Fixpoint pageRun (p : Page) (evs : list PageEvent) : option Page :=
  match evs with
  | [] => Some p
  | ev :: rest =>
      match pageNext p ev with
      | Some q => pageRun q rest
      | None => None
      end
  end.

(** A string made of white space and line terminators only, the empty
    string included. *)
Definition blank (s : jsstring) : bool := forallb isTrimmable s.

(** The error of a field, by its key. *)
Definition errorOf (e : FormErrors.t) (field : Field.t) : jsstring :=
  match field with
  | Field.email => FormErrors.email e
  | Field.password => FormErrors.password e
  | Field.passwordValidate => FormErrors.passwordValidate e
  end.

(** The value of a field, by its key. *)
Definition valueOf (fd : FormData.t) (field : Field.t) : jsstring :=
  match field with
  | Field.email => FormData.email fd
  | Field.password => FormData.password fd
  | Field.passwordValidate => FormData.passwordValidate fd
  end.

(** The values the code ever stores in the four error fields. *)
Definition errorsInRange (e : FormErrors.t) : Prop :=
  (FormErrors.email e = [] \/ FormErrors.email e = REQUIRED)
  /\ (FormErrors.password e = [] \/ FormErrors.password e = REQUIRED
      \/ FormErrors.password e = PASSWORD_REQUIREMENTS_MISMATCH)
  /\ (FormErrors.passwordValidate e = []
      \/ FormErrors.passwordValidate e = REQUIRED
      \/ FormErrors.passwordValidate e = PASSWORDS_DO_NOT_MATCH)
  /\ (FormErrors.repeatPassword e = None
      \/ FormErrors.repeatPassword e = Some []
      \/ FormErrors.repeatPassword e = Some PASSWORDS_DO_NOT_MATCH).

Definition isSuccess (n : Notification) : bool :=
  match n with
  | NSuccess _ => true
  | NError _ => false
  end.

(** Calls pending and [isSubmitting] go together. *)
Definition pendingMatches (p : Page) : Prop :=
  pending p = if isSubmitting (ui p) then 1 else 0.

(** Every call of [register] is answered by one notification or still
    pending, and navigation goes with the success notifications. *)
Definition accounted (p : Page) : Prop :=
  List.length (registrations (log p))
  = List.length (notifications (log p)) + pending p
  /\ List.length (navigations (log p))
     = List.length (filter isSuccess (notifications (log p)))
  /\ (forall path, In path (navigations (log p)) -> path = lit "/login").

(** Every call of [register] carried a non-blank email and a password that
    [validatePassword] accepts. *)
Definition registeredValid (p : Page) : Prop :=
  forall email password : jsstring,
    In (email, password) (registrations (log p)) ->
    blank email = false /\ validatePassword password = [].

(** Filling in the form and pressing submit, and the page that gives. *)
Definition fillAndSubmit : list PageEvent :=
  [Edit Field.email (lit "a@b.com");
   Edit Field.password (lit "Abc12345!");
   Edit Field.passwordValidate (lit "Abc12345!");
   PressSubmit].

Definition submittedPage : Page :=
  match pageRun mounted fillAndSubmit with
  | Some p => p
  | None => mounted
  end.

(** The same, with the call then settled by a response without message. *)
Definition fillSubmitSettle : list PageEvent :=
  fillAndSubmit ++ [Settle (Fulfilled (mkResponse None))].

Definition settledPage : Page :=
  match pageRun mounted fillSubmitSettle with
  | Some p => p
  | None => mounted
  end.

(** ** Validators *)

Example validatePassword_compliant :
  validatePassword (lit "Abcdef1!") = [].
Proof. reflexivity. Qed.

Example validatePassword_all_lowercase :
  validatePassword (lit "abcdefgh") = PASSWORD_REQUIREMENTS_MISMATCH.
Proof. reflexivity. Qed.

Example validatePassword_empty :
  validatePassword [] = REQUIRED.
Proof. reflexivity. Qed.


(** ** The matcher on [passwordRegex] *)

Lemma ahead_reach (c : charset) (pos : nat) (s : jsstring) :
  matcher (ahead c) pos s (fun _ _ => true) = reach c s.
Proof.
  unfold ahead. cbn [matcher]. rewrite andb_true_r.
  revert pos. induction s as [|x t IH]; intro pos; cbn [star reach].
  - reflexivity.
  - rewrite IH, andb_true_r. reflexivity.
Qed.

Lemma reach_firstLine (c : charset) (s : jsstring) :
  (forall x, c x = true -> dot x = true) ->
  reach c s = existsb c (firstLine s).
Proof.
  intro Hc. induction s as [|x t IH]; cbn [reach firstLine]; [reflexivity|].
  destruct (dot x) eqn:Hd; cbn [existsb andb orb].
  - rewrite IH. apply orb_comm.
  - destruct (c x) eqn:Hx; [|reflexivity].
    apply Hc in Hx. congruence.
Qed.

Lemma reach_anywhere (c : charset) (s : jsstring) :
  (forall x, dot x = false -> c x = true) ->
  reach c s = existsb c s.
Proof.
  intro Hc. induction s as [|x t IH]; cbn [reach existsb]; [reflexivity|].
  rewrite IH. destruct (dot x) eqn:Hd; cbn [andb orb].
  - apply orb_comm.
  - rewrite (Hc _ Hd). reflexivity.
Qed.

Lemma star_total_atEnd (c : charset) (pos : nat) (s : jsstring) :
  (forall x, c x = true) -> star c pos s atEnd = true.
Proof.
  intro Hc. revert pos. induction s as [|x t IH]; intro pos; cbn [star].
  - reflexivity.
  - rewrite Hc, IH. reflexivity.
Qed.

Lemma atLeast_total_atEnd (c : charset) (n pos : nat) (s : jsstring) :
  (forall x, c x = true) ->
  atLeast n c pos s atEnd = (n <=? List.length s).
Proof.
  intro Hc. revert pos s.
  induction n as [|n IH]; intros pos s; cbn [atLeast].
  - rewrite star_total_atEnd by assumption. reflexivity.
  - destruct s as [|x t]; [reflexivity|].
    rewrite Hc, IH. reflexivity.
Qed.

Ltac charset_lia :=
  repeat match goal with
         | H : _ = false |- _ => apply not_true_iff_false in H
         end;
  unfold special, anyListed, alnum, nonword, word, dot, lower, upper, digit,
    underscore, union, complement, single, range,
    isTrimmable, isWhiteSpace, isLineTerminator in *;
  repeat match goal with
         | H : _ |- _ =>
             progress rewrite ?negb_true_iff, ?orb_true_iff, ?andb_true_iff,
               ?orb_false_iff, ?andb_false_iff, ?negb_false_iff,
               ?N.eqb_eq, ?N.eqb_neq, ?N.leb_le, ?N.leb_gt in H
         end;
  repeat (progress rewrite ?negb_true_iff, ?orb_true_iff, ?andb_true_iff,
            ?orb_false_iff, ?andb_false_iff, ?negb_false_iff,
            ?N.eqb_eq, ?N.eqb_neq, ?N.leb_le, ?N.leb_gt);
  lia.

Lemma anyListed_total (x : N) : anyListed x = true.
Proof.
  destruct (anyListed x) eqn:H; [reflexivity|].
  exfalso. charset_lia.
Qed.

Lemma lower_dot (x : N) : lower x = true -> dot x = true.
Proof. intro H. charset_lia. Qed.

Lemma upper_dot (x : N) : upper x = true -> dot x = true.
Proof. intro H. charset_lia. Qed.

Lemma digit_dot (x : N) : digit x = true -> dot x = true.
Proof. intro H. charset_lia. Qed.

Lemma lineTerminator_special (x : N) : dot x = false -> special x = true.
Proof. intro H. charset_lia. Qed.

Lemma special_not_alnum (x : N) : special x = complement alnum x.
Proof.
  destruct (special x) eqn:H1, (complement alnum x) eqn:H2;
    try reflexivity; exfalso; charset_lia.
Qed.

Lemma existsb_special (s : jsstring) :
  existsb special s = existsb (complement alnum) s.
Proof.
  induction s as [|x t IH]; cbn [existsb]; [reflexivity|].
  rewrite IH, special_not_alnum. reflexivity.
Qed.

Lemma lower_not_trimmable (x : N) : lower x = true -> isTrimmable x = false.
Proof.
  intro H. destruct (isTrimmable x) eqn:H1; [exfalso; charset_lia|reflexivity].
Qed.

Lemma matcher_Seq (a b : pattern) (pos : nat) (s : jsstring)
      (k : continuation) :
  matcher (Seq a b) pos s k
  = matcher a pos s (fun pos' rest' => matcher b pos' rest' k).
Proof. reflexivity. Qed.

Lemma matcher_AssertStart (pos : nat) (s : jsstring) (k : continuation) :
  matcher AssertStart pos s k = Nat.eqb pos 0 && k pos s.
Proof. reflexivity. Qed.

Lemma matcher_AtLeast (n : nat) (c : charset) (pos : nat) (s : jsstring)
      (k : continuation) :
  matcher (AtLeast n c) pos s k = atLeast n c pos s k.
Proof. reflexivity. Qed.

Lemma matcher_ahead (c : charset) (pos : nat) (s : jsstring)
      (k : continuation) :
  matcher (ahead c) pos s k = reach c s && k pos s.
Proof.
  rewrite <- (ahead_reach c pos s). unfold ahead. cbn [matcher].
  rewrite andb_true_r. reflexivity.
Qed.

(** What one attempt of [passwordRegex] decides, at index 0 and later. *)
Lemma matcher_passwordRegex (pos : nat) (s : jsstring) :
  matcher passwordRegex pos s (fun _ _ => true)
  = Nat.eqb pos 0 && regexPolicy s.
Proof.
  unfold passwordRegex, regexPolicy.
  rewrite matcher_Seq, matcher_AssertStart. f_equal.
  repeat (rewrite matcher_Seq, matcher_ahead).
  rewrite matcher_Seq, matcher_AtLeast.
  rewrite (reach_firstLine lower s lower_dot),
          (reach_firstLine upper s upper_dot),
          (reach_firstLine digit s digit_dot),
          (reach_anywhere special s lineTerminator_special).
  rewrite existsb_special.
  change (fun pos' rest' => matcher AssertEnd pos' rest' (fun _ _ => true))
    with atEnd.
  rewrite (atLeast_total_atEnd anyListed 8 pos s anyListed_total).
  destruct (8 <=? List.length s), (existsb lower (firstLine s)),
    (existsb upper (firstLine s)), (existsb digit (firstLine s)),
    (existsb (complement alnum) s); reflexivity.
Qed.

Lemma execFrom_passwordRegex_later (pos : nat) (s : jsstring) :
  execFrom passwordRegex (S pos) s = false.
Proof.
  revert pos. induction s as [|x t IH]; intro pos; cbn [execFrom];
    rewrite matcher_passwordRegex; cbn [Nat.eqb andb orb].
  - reflexivity.
  - apply IH.
Qed.

(** [passwordRegex.test(s)] *)
Lemma test_passwordRegex (s : jsstring) :
  test passwordRegex s = regexPolicy s.
Proof.
  unfold test. destruct s as [|x t]; cbn [execFrom];
    rewrite matcher_passwordRegex; cbn [Nat.eqb andb].
  - apply orb_false_r.
  - rewrite execFrom_passwordRegex_later. apply orb_false_r.
Qed.

(** ** [trim] and the validators *)

Lemma truthy_false_iff (s : jsstring) : truthy s = false <-> s = [].
Proof. destruct s; cbn; split; congruence. Qed.

Lemma truthy_true_iff (s : jsstring) : truthy s = true <-> s <> [].
Proof. destruct s; cbn; split; congruence. Qed.

Lemma strict_eq_true_iff (a b : jsstring) : strict_eq a b = true <-> a = b.
Proof.
  unfold strict_eq. destruct (list_eq_dec N.eq_dec a b); split; congruence.
Qed.

Lemma strict_eq_false_iff (a b : jsstring) : strict_eq a b = false <-> a <> b.
Proof.
  unfold strict_eq. destruct (list_eq_dec N.eq_dec a b); split; congruence.
Qed.

Lemma trimStart_nil_iff (s : jsstring) :
  trimStart s = [] <-> forallb isTrimmable s = true.
Proof.
  induction s as [|x t IH]; cbn [trimStart forallb].
  - tauto.
  - destruct (isTrimmable x); cbn [andb]; [exact IH|].
    split; discriminate.
Qed.

Lemma forallb_trimStart (s : jsstring) :
  forallb isTrimmable (trimStart s) = forallb isTrimmable s.
Proof.
  induction s as [|x t IH]; cbn [trimStart]; [reflexivity|].
  destruct (isTrimmable x) eqn:Hx; cbn [forallb]; rewrite ?Hx; auto.
Qed.

Lemma forallb_rev (f : N -> bool) (s : jsstring) :
  forallb f (rev s) = forallb f s.
Proof.
  induction s as [|x t IH]; cbn [rev forallb]; [reflexivity|].
  rewrite forallb_app, IH. cbn [forallb]. rewrite andb_true_r.
  apply andb_comm.
Qed.

(** [s.trim()] is empty exactly when [s] holds only white space and line
    terminators. *)
Lemma trim_blank (s : jsstring) :
  truthy (trim s) = negb (forallb isTrimmable s).
Proof.
  destruct (forallb isTrimmable s) eqn:H; cbn [negb].
  - apply truthy_false_iff. unfold trim, trimEnd.
    apply trimStart_nil_iff in H. rewrite H. reflexivity.
  - destruct (truthy (trim s)) eqn:Ht; [reflexivity|].
    apply truthy_false_iff in Ht. unfold trim, trimEnd in Ht.
    assert (Hn : trimStart (rev (trimStart s)) = []).
    { rewrite <- (rev_involutive (trimStart (rev (trimStart s)))), Ht.
      reflexivity. }
    apply trimStart_nil_iff in Hn.
    rewrite forallb_rev, forallb_trimStart in Hn. congruence.
Qed.

Lemma validateEmpty_cases (value : jsstring) :
  validateEmpty value = if forallb isTrimmable value then REQUIRED else [].
Proof.
  unfold validateEmpty. rewrite trim_blank.
  destruct (forallb isTrimmable value); reflexivity.
Qed.

Lemma validateEmpty_range (value : jsstring) :
  validateEmpty value = [] \/ validateEmpty value = REQUIRED.
Proof.
  rewrite validateEmpty_cases. destruct (forallb isTrimmable value); auto.
Qed.

(** The three results of [validatePassword]. *)
Lemma validatePassword_cases (s : jsstring) :
  validatePassword s
  = if forallb isTrimmable s then REQUIRED
    else if regexPolicy s then [] else PASSWORD_REQUIREMENTS_MISMATCH.
Proof.
  unfold validatePassword. rewrite trim_blank, test_passwordRegex, negb_involutive.
  destruct (forallb isTrimmable s), (regexPolicy s); reflexivity.
Qed.

Lemma existsb_firstLine (c : charset) (s : jsstring) :
  existsb c (firstLine s) = true -> existsb c s = true.
Proof.
  induction s as [|x t IH]; cbn [firstLine existsb]; [discriminate|].
  destruct (dot x); cbn [existsb]; [|discriminate].
  destruct (c x); cbn [orb]; auto.
Qed.

Lemma firstLine_no_lineTerminator (s : jsstring) :
  forallb dot s = true -> firstLine s = s.
Proof.
  induction s as [|x t IH]; cbn [firstLine forallb]; [reflexivity|].
  destruct (dot x); cbn [andb]; [|discriminate].
  intro H. rewrite (IH H). reflexivity.
Qed.

(** What the regular expression accepts meets the policy as specified. *)
Lemma regexPolicy_meetsPolicy (s : jsstring) :
  regexPolicy s = true -> meetsPolicy s = true.
Proof.
  unfold regexPolicy, meetsPolicy. rewrite !andb_true_iff.
  intros [[[[Hl Ha] Hb] Hc] Hd].
  repeat split; auto using existsb_firstLine.
Qed.

(** On a string without line terminators the two agree. *)
Lemma regexPolicy_no_lineTerminator (s : jsstring) :
  forallb dot s = true -> regexPolicy s = meetsPolicy s.
Proof.
  intro H. unfold regexPolicy. rewrite (firstLine_no_lineTerminator s H).
  reflexivity.
Qed.

Lemma meetsPolicy_not_blank (s : jsstring) :
  meetsPolicy s = true -> forallb isTrimmable s = false.
Proof.
  unfold meetsPolicy. rewrite !andb_true_iff.
  intros [[[[_ Ha] _] _] _].
  apply existsb_exists in Ha. destruct Ha as [x [Hin Hx]].
  destruct (forallb isTrimmable s) eqn:Hf; [|reflexivity].
  rewrite forallb_forall in Hf. specialize (Hf x Hin).
  rewrite (lower_not_trimmable x Hx) in Hf. discriminate.
Qed.

(** [validatePassword] returns the empty string exactly on what the regular
    expression accepts. *)
Lemma validatePassword_empty_iff (s : jsstring) :
  validatePassword s = [] <-> regexPolicy s = true.
Proof.
  rewrite validatePassword_cases.
  destruct (forallb isTrimmable s) eqn:Hb.
  - split; [discriminate|].
    intro H. apply regexPolicy_meetsPolicy, meetsPolicy_not_blank in H.
    congruence.
  - destruct (regexPolicy s); split; auto; discriminate.
Qed.

(** Without line terminators in the password, the policy as specified. *)
Lemma validatePassword_no_lineTerminator (s : jsstring) :
  forallb dot s = true ->
  (validatePassword s = [] <-> meetsPolicy s = true).
Proof.
  intro H. rewrite validatePassword_empty_iff, regexPolicy_no_lineTerminator by assumption.
  tauto.
Qed.

Lemma validatePassword_range (s : jsstring) :
  validatePassword s = [] \/ validatePassword s = REQUIRED
  \/ validatePassword s = PASSWORD_REQUIREMENTS_MISMATCH.
Proof.
  rewrite validatePassword_cases.
  destruct (forallb isTrimmable s), (regexPolicy s); auto.
Qed.

(** ** Running a handler *)

Lemma run_app (s : State) (t1 t2 : list Effect) :
  run s (t1 ++ t2) = run (run s t1) t2.
Proof. unfold run. apply fold_left_app. Qed.

(** The [finally] clause: whatever state the rest of the trace is applied
    to, also one changed by events handled while the call was pending,
    [isSubmitting] is false at the end. *)
Lemma run_finally (s : State) (tr : list Effect) :
  isSubmitting (run s (tr ++ [SetIsSubmitting false])) = false.
Proof. rewrite run_app. reflexivity. Qed.

Lemma run_validate (s : State) (field : Field.t) (value : jsstring) :
  run s (validate s field value)
  = mkState (updateFormData (formData s) field value)
            (match field with
             | Field.email =>
                 updateErrors (errors s) field (validateEmpty value)
             | Field.password =>
                 updateRepeatPassword
                   (updateErrors (errors s) field (validateEmpty value))
                   (if strict_eq value (FormData.passwordValidate (formData s))
                    then [] else PASSWORDS_DO_NOT_MATCH)
             | Field.passwordValidate =>
                 updateRepeatPassword
                   (updateErrors (errors s) field (validateEmpty value))
                   (if strict_eq value (FormData.password (formData s))
                    then [] else PASSWORDS_DO_NOT_MATCH)
             end)
            (isSubmitting s).
Proof. destruct field; reflexivity. Qed.

Lemma truthy_or_false (a b c : jsstring) :
  truthy a || truthy b || truthy c = false <-> a = [] /\ b = [] /\ c = [].
Proof.
  rewrite !orb_false_iff, !truthy_false_iff. tauto.
Qed.

(** The early [return] of [handleSubmit]. *)
Lemma handleSubmit_invalid (register : jsstring -> jsstring -> Settled)
      (s : State) :
  ~ submittable (formData s) ->
  handleSubmit register s
  = [PreventDefault; SetErrors (submitErrors (formData s))].
Proof.
  intro H. unfold handleSubmit.
  destruct (truthy (emailError (formData s))
            || truthy (passwordError (formData s))
            || truthy (passwordValidateError (formData s))) eqn:Hv.
  - reflexivity.
  - apply truthy_or_false in Hv. contradiction.
Qed.

(** The path through [try ... finally]. *)
Lemma handleSubmit_valid (register : jsstring -> jsstring -> Settled)
      (s : State) :
  submittable (formData s) ->
  handleSubmit register s
  = PreventDefault ::
    SetErrors (submitErrors (formData s)) ::
    SetIsSubmitting true ::
    Register (FormData.email (formData s)) (FormData.password (formData s)) ::
    match register (FormData.email (formData s))
                   (FormData.password (formData s)) with
    | Fulfilled response =>
        if messageTruthy response
        then [ToastError (messageText response)]
        else [ToastSuccess (lit "Registered successfully");
              HistoryPush (lit "/login")]
    | Rejected => [ToastError (lit "An error occurred while registering")]
    end ++ [SetIsSubmitting false].
Proof.
  intro H. apply truthy_or_false in H. unfold handleSubmit.
  rewrite H. reflexivity.
Qed.

Lemma run_handleSubmit_errors (register : jsstring -> jsstring -> Settled)
      (s : State) :
  errors (run s (handleSubmit register s)) = submitErrors (formData s).
Proof.
  unfold handleSubmit.
  destruct (truthy (emailError (formData s))
            || truthy (passwordError (formData s))
            || truthy (passwordValidateError (formData s))).
  - reflexivity.
  - destruct (register _ _) as [response|]; [destruct (messageTruthy response)|];
      reflexivity.
Qed.

(** ** Properties of the form *)

(** C1, as stated, fails: after typing a password into the fresh form the
    mismatch message is set, and submitting then leaves the mismatch field
    absent instead of keeping it. *)
Lemma handleSubmit_keeps_repeatPassword_counterexample :
  let s := step rejects initial (Change Field.password (lit "Abc12345!")) in
  FormErrors.repeatPassword (errors s) = Some PASSWORDS_DO_NOT_MATCH
  /\ FormErrors.repeatPassword (errors (step rejects s Submit)) = None
  /\ FormErrors.repeatPassword (errors (step rejects s Submit))
     <> FormErrors.repeatPassword (errors s).
Proof.
  cbv zeta. repeat split. discriminate.
Qed.

(** C1, amended: for every state and every settlement of [register], submit
    replaces the whole error state by the object holding the freshly computed
    email, password and passwordValidate errors; the mismatch field
    [repeatPassword] is absent afterwards, whatever it was before. *)
Theorem handleSubmit_replaces_errors :
  forall (register : jsstring -> jsstring -> Settled) (s : State),
    let e' := errors (step register s Submit) in
    FormErrors.email e' = validateEmpty (FormData.email (formData s))
    /\ FormErrors.password e'
       = validatePassword (FormData.password (formData s))
    /\ FormErrors.passwordValidate e' = passwordValidateError (formData s)
    /\ FormErrors.repeatPassword e' = None
    /\ repeatPasswordShown e' = false.
Proof.
  intros register s e'. subst e'. unfold step. cbn [handler].
  rewrite run_handleSubmit_errors. repeat split.
Qed.

(** C2, as stated, fails: typing "a" into the password of the fresh form
    sets the mismatch message although the confirmation is empty, so the
    message is not equivalent to both values being non-blank and unequal. *)
Lemma validate_mismatch_needs_nonblank_counterexample :
  let s' := run initial (validate initial Field.password (lit "a")) in
  ~ (repeatPasswordShown (errors s') = true
     <-> (truthy (trim (FormData.password (formData s'))) = true
          /\ truthy (trim (FormData.passwordValidate (formData s'))) = true
          /\ FormData.password (formData s')
             <> FormData.passwordValidate (formData s'))).
Proof.
  cbv zeta. intros [H _].
  assert (Hs : repeatPasswordShown
                 (errors (run initial
                            (validate initial Field.password (lit "a"))))
               = true) by reflexivity.
  destruct (H Hs) as [_ [Hc _]]. discriminate Hc.
Qed.

(** C2, amended: after a change of the password or of the confirmation, the
    mismatch message is non-empty if and only if the two values then stored
    are unequal, blank or not; in particular an edit that leaves one value
    empty and the other not sets the message. *)
Theorem validate_mismatch_iff_unequal :
  (forall (s : State) (field : Field.t) (value : jsstring),
      field <> Field.email ->
      let s' := run s (validate s field value) in
      repeatPasswordShown (errors s') = true
      <-> FormData.password (formData s')
          <> FormData.passwordValidate (formData s'))
  /\ (forall (s : State) (field : Field.t) (value : jsstring),
         field <> Field.email ->
         let s' := run s (validate s field value) in
         (FormData.password (formData s') = []
          /\ FormData.passwordValidate (formData s') <> [])
         \/ (FormData.password (formData s') <> []
             /\ FormData.passwordValidate (formData s') = []) ->
         FormErrors.repeatPassword (errors s') = Some PASSWORDS_DO_NOT_MATCH).
Proof.
  split; intros s field value Hf s'; subst s'; rewrite run_validate;
    destruct field; try contradiction;
    cbn [formData errors updateFormData updateErrors updateRepeatPassword
         repeatPasswordShown FormErrors.repeatPassword
         FormData.password FormData.passwordValidate].
  - destruct (strict_eq value (FormData.passwordValidate (formData s))) eqn:E.
    + apply strict_eq_true_iff in E. cbn. split; [discriminate|congruence].
    + apply strict_eq_false_iff in E. cbn. tauto.
  - destruct (strict_eq value (FormData.password (formData s))) eqn:E.
    + apply strict_eq_true_iff in E. cbn. split; [discriminate|congruence].
    + apply strict_eq_false_iff in E. cbn. split; [congruence|reflexivity].
  - intro H.
    destruct (strict_eq value (FormData.passwordValidate (formData s))) eqn:E;
      [|reflexivity].
    apply strict_eq_true_iff in E. destruct H as [[H1 H2]|[H1 H2]]; congruence.
  - intro H.
    destruct (strict_eq value (FormData.password (formData s))) eqn:E;
      [|reflexivity].
    apply strict_eq_true_iff in E. destruct H as [[H1 H2]|[H1 H2]]; congruence.
Qed.

Lemma validate_mismatch_iff_unequal_witness :
  Field.password <> Field.email
  /\ (repeatPasswordShown
        (errors (run initial (validate initial Field.password (lit "a"))))
      = true
      <-> FormData.password
            (formData (run initial (validate initial Field.password (lit "a"))))
          <> FormData.passwordValidate
               (formData
                  (run initial (validate initial Field.password (lit "a"))))).
Proof.
  split.
  - discriminate.
  - apply (proj1 validate_mismatch_iff_unequal
                 initial Field.password (lit "a")).
    discriminate.
Defined.

(** C3: [validatePassword] on a password that opens with a line separator
    (U+2028) and then holds "Abcdef1!": nine characters with a lowercase
    letter, an uppercase letter, a digit and a character outside [A-Za-z0-9],
    yet the result is the requirements message, not the empty string. *)
Theorem validatePassword_line_separator :
  meetsPolicy (8232%N :: lit "Abcdef1!") = true
  /\ truthy (trim (8232%N :: lit "Abcdef1!")) = true
  /\ validatePassword (8232%N :: lit "Abcdef1!")
     = PASSWORD_REQUIREMENTS_MISMATCH.
Proof. repeat split. Qed.

(** C4: a change of the password compares the new value with the stored
    confirmation, a change of the confirmation compares it with the stored
    password, and the result decides the mismatch message; a change of the
    email sets the email error and leaves the password, passwordValidate and
    mismatch errors as they were.  With both fields at "Abc12345!", changing
    the password to "Abc12345!X" sets the mismatch message. *)
Theorem validate_recomputes_repeatPassword :
  (forall (s : State) (value : jsstring),
      FormErrors.repeatPassword
        (errors (run s (validate s Field.password value)))
      = Some (if strict_eq value (FormData.passwordValidate (formData s))
              then [] else PASSWORDS_DO_NOT_MATCH))
  /\ (forall (s : State) (value : jsstring),
         FormErrors.repeatPassword
           (errors (run s (validate s Field.passwordValidate value)))
         = Some (if strict_eq value (FormData.password (formData s))
                 then [] else PASSWORDS_DO_NOT_MATCH))
  /\ (forall (s : State) (value : jsstring),
         let e' := errors (run s (validate s Field.email value)) in
         FormErrors.email e' = validateEmpty value
         /\ FormErrors.password e' = FormErrors.password (errors s)
         /\ FormErrors.passwordValidate e'
            = FormErrors.passwordValidate (errors s)
         /\ FormErrors.repeatPassword e'
            = FormErrors.repeatPassword (errors s))
  /\ (forall (email : jsstring) (e : FormErrors.t) (submitting : bool),
         let s := mkState
                    (FormData.mk email (lit "Abc12345!") (lit "Abc12345!"))
                    e submitting in
         FormErrors.repeatPassword
           (errors (run s (validate s Field.password (lit "Abc12345!X"))))
         = Some PASSWORDS_DO_NOT_MATCH).
Proof.
  repeat split; intros; rewrite run_validate; reflexivity.
Qed.

(** C5: a change of the password sets its error to the result of
    [validateEmpty], which is never the requirements message; no change of
    any field puts the requirements message into an error field that did not
    hold it already; submit sets the password error to the result of
    [validatePassword], which is the requirements message for "weak". *)
Theorem requirements_mismatch_only_on_submit :
  (forall (s : State) (value : jsstring),
      let e' := errors (run s (validate s Field.password value)) in
      FormErrors.password e' = validateEmpty value
      /\ FormErrors.password e' <> PASSWORD_REQUIREMENTS_MISMATCH)
  /\ (forall (s : State) (field : Field.t) (value : jsstring),
         let e := errors s in
         let e' := errors (run s (validate s field value)) in
         (FormErrors.email e' = FormErrors.email e
          \/ FormErrors.email e' <> PASSWORD_REQUIREMENTS_MISMATCH)
         /\ (FormErrors.password e' = FormErrors.password e
             \/ FormErrors.password e' <> PASSWORD_REQUIREMENTS_MISMATCH)
         /\ (FormErrors.passwordValidate e' = FormErrors.passwordValidate e
             \/ FormErrors.passwordValidate e'
                <> PASSWORD_REQUIREMENTS_MISMATCH)
         /\ (FormErrors.repeatPassword e' = FormErrors.repeatPassword e
             \/ FormErrors.repeatPassword e'
                <> Some PASSWORD_REQUIREMENTS_MISMATCH))
  /\ (forall (register : jsstring -> jsstring -> Settled) (s : State),
         FormErrors.password (errors (step register s Submit))
         = validatePassword (FormData.password (formData s)))
  /\ validatePassword (lit "weak") = PASSWORD_REQUIREMENTS_MISMATCH.
Proof.
  assert (Hne : forall v, validateEmpty v <> PASSWORD_REQUIREMENTS_MISMATCH).
  { intro v. destruct (validateEmpty_range v) as [H|H]; rewrite H; discriminate. }
  split; [|split; [|split]].
  - intros s value e'. subst e'. rewrite run_validate.
    split; [reflexivity|apply Hne].
  - intros s field value e e'. subst e e'. rewrite run_validate.
    destruct field;
      cbn [errors updateErrors updateRepeatPassword FormErrors.email
           FormErrors.password FormErrors.passwordValidate
           FormErrors.repeatPassword];
      repeat split; auto;
      right; match goal with
             | |- Some (if ?b then _ else _) <> _ => destruct b; discriminate
             end.
  - intros register s. unfold step. cbn [handler].
    rewrite run_handleSubmit_errors. reflexivity.
  - reflexivity.
Qed.

(** C6: when one of the three errors computed by submit is non-empty, submit
    sets the errors and returns: [register] is not called, nothing is
    notified and nothing navigates.  With an empty email beside a good
    password the email error is Required; with "weak" as password the
    password error is the requirements message. *)
Theorem handleSubmit_rejects_invalid :
  (forall (register : jsstring -> jsstring -> Settled) (s : State),
      emailError (formData s) <> []
      \/ passwordError (formData s) <> []
      \/ passwordValidateError (formData s) <> [] ->
      registrations (handleSubmit register s) = []
      /\ notifications (handleSubmit register s) = []
      /\ navigations (handleSubmit register s) = []
      /\ step register s Submit
         = mkState (formData s) (submitErrors (formData s)) (isSubmitting s))
  /\ (forall (register : jsstring -> jsstring -> Settled)
             (e : FormErrors.t) (submitting : bool),
         let s := mkState
                    (FormData.mk [] (lit "Abc12345!") (lit "Abc12345!"))
                    e submitting in
         FormErrors.email (errors (step register s Submit)) = REQUIRED
         /\ registrations (handleSubmit register s) = [])
  /\ (forall (register : jsstring -> jsstring -> Settled)
             (e : FormErrors.t) (submitting : bool),
         let s := mkState
                    (FormData.mk (lit "a@b.com") (lit "weak") (lit "weak"))
                    e submitting in
         FormErrors.password (errors (step register s Submit))
         = PASSWORD_REQUIREMENTS_MISMATCH
         /\ registrations (handleSubmit register s) = []).
Proof.
  split; [|split].
  - intros register s H. unfold step. cbn [handler].
    rewrite handleSubmit_invalid.
    + repeat split.
    + unfold submittable. intros [H1 [H2 H3]].
      destruct H as [H|[H|H]]; contradiction.
  - intros register e submitting s. split; reflexivity.
  - intros register e submitting s. split; reflexivity.
Qed.

Lemma handleSubmit_rejects_invalid_witness :
  (emailError (formData initial) <> []
   \/ passwordError (formData initial) <> []
   \/ passwordValidateError (formData initial) <> [])
  /\ registrations (handleSubmit resolvesPlain initial) = [].
Proof.
  assert (H : emailError (formData initial) <> []
              \/ passwordError (formData initial) <> []
              \/ passwordValidateError (formData initial) <> [])
    by (left; discriminate).
  split.
  - exact H.
  - exact (proj1 (proj1 handleSubmit_rejects_invalid resolvesPlain initial H)).
Defined.

(** The effects of submit on a valid form, by the settlement of [register]. *)
Lemma handleSubmit_observed (register : jsstring -> jsstring -> Settled)
      (s : State) (tail : list Effect) :
  submittable (formData s) ->
  match register (FormData.email (formData s))
                 (FormData.password (formData s)) with
  | Fulfilled response =>
      if messageTruthy response
      then [ToastError (messageText response)]
      else [ToastSuccess (lit "Registered successfully");
            HistoryPush (lit "/login")]
  | Rejected => [ToastError (lit "An error occurred while registering")]
  end = tail ->
  handleSubmit register s
  = [PreventDefault; SetErrors (submitErrors (formData s));
     SetIsSubmitting true;
     Register (FormData.email (formData s)) (FormData.password (formData s))]
    ++ tail ++ [SetIsSubmitting false].
Proof.
  intros Hv Ht. rewrite (handleSubmit_valid register s Hv), Ht. reflexivity.
Qed.

(** C7: on a form whose three submit-time errors are empty, when [register]
    resolves with a response without [message], submit calls [register] once
    with the email and the password, notifies exactly once, a success,
    navigates exactly once, to "/login", sets [isSubmitting] before the call
    and ends by clearing it, so that it is false afterwards. *)
Theorem handleSubmit_success :
  forall (register : jsstring -> jsstring -> Settled) (s : State),
    submittable (formData s) ->
    register (FormData.email (formData s)) (FormData.password (formData s))
    = Fulfilled (mkResponse None) ->
    let tr := handleSubmit register s in
    notifications tr = [NSuccess (lit "Registered successfully")]
    /\ navigations tr = [lit "/login"]
    /\ registrations tr
       = [(FormData.email (formData s), FormData.password (formData s))]
    /\ isSubmitting (step register s Submit) = false
    /\ exists before,
        tr = before ++ [ToastSuccess (lit "Registered successfully");
                        HistoryPush (lit "/login");
                        SetIsSubmitting false]
        /\ isSubmitting (run s before) = true.
Proof.
  intros register s Hv Hr tr. subst tr. unfold step. cbn [handler].
  rewrite (handleSubmit_observed register s Hv
             (tail := [ToastSuccess (lit "Registered successfully");
                       HistoryPush (lit "/login")]))
    by (rewrite Hr; reflexivity).
  repeat split.
  eexists. split; reflexivity.
Qed.

Lemma handleSubmit_success_witness :
  let s := mkState filledForm (errors initial) false in
  submittable (formData s)
  /\ resolvesPlain (FormData.email (formData s))
                   (FormData.password (formData s))
     = Fulfilled (mkResponse None)
  /\ notifications (handleSubmit resolvesPlain s)
     = [NSuccess (lit "Registered successfully")]
  /\ navigations (handleSubmit resolvesPlain s) = [lit "/login"]
  /\ isSubmitting (step resolvesPlain s Submit) = false.
Proof.
  cbv zeta.
  assert (Hv : submittable filledForm) by (repeat split; reflexivity).
  split; [exact Hv|].
  split; [reflexivity|].
  pose proof (handleSubmit_success resolvesPlain
                (mkState filledForm (errors initial) false)
                Hv eq_refl) as H.
  cbv zeta in H. destruct H as [H1 [H2 [_ [H4 _]]]].
  repeat split; assumption.
Defined.

(** C8, as stated, fails: a response that carries the empty string as its
    [message] does not produce an error notification with that text; submit
    notifies a success and navigates to "/login". *)
Lemma handleSubmit_empty_message_counterexample :
  let s := mkState filledForm (errors initial) false in
  let tr := handleSubmit (resolvesWith []) s in
  resolvesWith [] (FormData.email (formData s)) (FormData.password (formData s))
  = Fulfilled (mkResponse (Some []))
  /\ notifications tr <> [NError []]
  /\ notifications tr = [NSuccess (lit "Registered successfully")]
  /\ navigations tr <> []
  /\ navigations tr = [lit "/login"].
Proof.
  cbv zeta. repeat split; discriminate.
Qed.

(** C8, amended: on a form whose three submit-time errors are empty, when
    [register] resolves with a response whose [message] is a non-empty
    string, submit notifies exactly once, an error with that text, does not
    navigate and leaves [isSubmitting] false; when [register] rejects, submit
    notifies exactly once, the generic error, does not navigate and leaves
    [isSubmitting] false.  The message "Email taken" is an instance. *)
Theorem handleSubmit_failure :
  (forall (register : jsstring -> jsstring -> Settled) (s : State)
          (m : jsstring),
      submittable (formData s) ->
      m <> [] ->
      register (FormData.email (formData s)) (FormData.password (formData s))
      = Fulfilled (mkResponse (Some m)) ->
      notifications (handleSubmit register s) = [NError m]
      /\ navigations (handleSubmit register s) = []
      /\ isSubmitting (step register s Submit) = false)
  /\ (forall (register : jsstring -> jsstring -> Settled) (s : State),
         submittable (formData s) ->
         register (FormData.email (formData s))
                  (FormData.password (formData s))
         = Rejected ->
         notifications (handleSubmit register s)
         = [NError (lit "An error occurred while registering")]
         /\ navigations (handleSubmit register s) = []
         /\ isSubmitting (step register s Submit) = false)
  /\ (let s := mkState filledForm (errors initial) false in
      let tr := handleSubmit (resolvesWith (lit "Email taken")) s in
      notifications tr = [NError (lit "Email taken")]
      /\ navigations tr = []
      /\ isSubmitting (step (resolvesWith (lit "Email taken")) s Submit)
         = false).
Proof.
  split; [|split].
  - intros register s m Hv Hm Hr. unfold step. cbn [handler].
    rewrite (handleSubmit_observed register s Hv (tail := [ToastError m])).
    + repeat split.
    + rewrite Hr. unfold messageTruthy, messageText. cbn [message].
      apply truthy_true_iff in Hm. rewrite Hm. reflexivity.
  - intros register s Hv Hr. unfold step. cbn [handler].
    rewrite (handleSubmit_observed register s Hv
               (tail := [ToastError
                           (lit "An error occurred while registering")])).
    + repeat split.
    + rewrite Hr. reflexivity.
  - cbv zeta. repeat split.
Qed.

Lemma handleSubmit_failure_witness :
  let s := mkState filledForm (errors initial) false in
  submittable (formData s)
  /\ lit "Email taken" <> []
  /\ rejects (FormData.email (formData s)) (FormData.password (formData s))
     = Rejected
  /\ notifications (handleSubmit (resolvesWith (lit "Email taken")) s)
     = [NError (lit "Email taken")]
  /\ notifications (handleSubmit rejects s)
     = [NError (lit "An error occurred while registering")].
Proof.
  cbv zeta.
  assert (Hm : lit "Email taken" <> []) by discriminate.
  assert (Hv : submittable filledForm) by (repeat split; reflexivity).
  split; [exact Hv|].
  split; [exact Hm|].
  split; [reflexivity|].
  split.
  - exact (proj1 (proj1 handleSubmit_failure
                        (resolvesWith (lit "Email taken"))
                        (mkState filledForm (errors initial) false)
                        (lit "Email taken")
                        Hv Hm eq_refl)).
  - exact (proj1 (proj1 (proj2 handleSubmit_failure)
                        rejects
                        (mkState filledForm (errors initial) false)
                        Hv eq_refl)).
Defined.

(** C9: the submit button is disabled exactly when [isSubmitting] holds or
    one of the email, password and passwordValidate errors is non-empty; it
    is disabled whenever [isSubmitting] holds; and it is the same whatever
    the mismatch field [repeatPassword] holds. *)
Theorem disabled_iff :
  (forall s : State,
      disabled s = true
      <-> (isSubmitting s = true
           \/ FormErrors.email (errors s) <> []
           \/ FormErrors.password (errors s) <> []
           \/ FormErrors.passwordValidate (errors s) <> []))
  /\ (forall (fd : FormData.t) (e : FormErrors.t),
         disabled (mkState fd e true) = true)
  /\ (forall (fd : FormData.t) (e : FormErrors.t) (submitting : bool)
             (m : option jsstring),
         disabled (mkState fd (withRepeatPassword e m) submitting)
         = disabled (mkState fd e submitting)).
Proof.
  split; [|split].
  - intro s. unfold disabled.
    rewrite !orb_true_iff, !truthy_true_iff. tauto.
  - reflexivity.
  - reflexivity.
Qed.

(** C10: on a form whose three submit-time errors are empty, when [register]
    resolves with a response whose [message] is the empty string, submit
    notifies a success, and nothing else, and navigates to "/login". *)
Theorem handleSubmit_empty_message_succeeds :
  forall (register : jsstring -> jsstring -> Settled) (s : State),
    submittable (formData s) ->
    register (FormData.email (formData s)) (FormData.password (formData s))
    = Fulfilled (mkResponse (Some [])) ->
    notifications (handleSubmit register s)
    = [NSuccess (lit "Registered successfully")]
    /\ navigations (handleSubmit register s) = [lit "/login"].
Proof.
  intros register s Hv Hr.
  rewrite (handleSubmit_observed register s Hv
             (tail := [ToastSuccess (lit "Registered successfully");
                       HistoryPush (lit "/login")]))
    by (rewrite Hr; reflexivity).
  split; reflexivity.
Qed.

Lemma handleSubmit_empty_message_succeeds_witness :
  let s := mkState filledForm (errors initial) false in
  submittable (formData s)
  /\ resolvesWith [] (FormData.email (formData s))
                     (FormData.password (formData s))
     = Fulfilled (mkResponse (Some []))
  /\ notifications (handleSubmit (resolvesWith []) s)
     = [NSuccess (lit "Registered successfully")]
  /\ navigations (handleSubmit (resolvesWith []) s) = [lit "/login"].
Proof.
  cbv zeta.
  assert (Hv : submittable filledForm) by (repeat split; reflexivity).
  split; [exact Hv|].
  split; [reflexivity|].
  exact (handleSubmit_empty_message_succeeds
           (resolvesWith [])
           (mkState filledForm (errors initial) false)
           Hv eq_refl).
Defined.

(** ** Further properties of the validators *)

Lemma blank_trim (s : jsstring) : truthy (trim s) = negb (blank s).
Proof. apply trim_blank. Qed.

Lemma validateEmpty_not_blank (value : jsstring) :
  blank value = false -> validateEmpty value = [].
Proof.
  intro H. rewrite validateEmpty_cases. fold (blank value). rewrite H.
  reflexivity.
Qed.

Lemma passwordValidateError_mismatch (fd : FormData.t) :
  blank (FormData.passwordValidate fd) = false ->
  FormData.password fd <> FormData.passwordValidate fd ->
  passwordValidateError fd = PASSWORDS_DO_NOT_MATCH.
Proof.
  intros Hb Hne. unfold passwordValidateError.
  rewrite blank_trim, Hb. cbn [negb].
  apply strict_eq_false_iff in Hne. rewrite Hne. reflexivity.
Qed.

(** X1: [validateEmpty] returns Required exactly when the value holds
    nothing but white space and line terminators, the empty string
    included, and the empty string in every other case. *)
Theorem validateEmpty_required_iff_blank :
  forall value : jsstring,
    (validateEmpty value = REQUIRED <-> blank value = true)
    /\ (validateEmpty value = [] <-> blank value = false).
Proof.
  intro value. rewrite validateEmpty_cases. fold (blank value).
  destruct (blank value); repeat split; intros; try reflexivity;
    discriminate.
Qed.

(** X2: a password for which [validatePassword] returns the empty string
    has at least 8 code units, a lowercase letter, an uppercase letter, a
    digit and a character outside [A-Za-z0-9], and is not blank. *)
Theorem validatePassword_accepts_only_policy :
  forall password : jsstring,
    validatePassword password = [] ->
    meetsPolicy password = true /\ blank password = false.
Proof.
  intros password H. apply validatePassword_empty_iff in H.
  apply regexPolicy_meetsPolicy in H.
  split; [assumption|]. apply meetsPolicy_not_blank. assumption.
Qed.

Lemma validatePassword_accepts_only_policy_witness :
  validatePassword (lit "Abcdef1!") = []
  /\ meetsPolicy (lit "Abcdef1!") = true
  /\ blank (lit "Abcdef1!") = false.
Proof.
  split; [reflexivity|].
  apply (validatePassword_accepts_only_policy (lit "Abcdef1!")).
  reflexivity.
Defined.

(** X3: on a password without line terminators (LF, CR, U+2028, U+2029),
    [validatePassword] returns the empty string exactly when the policy is
    met, Required exactly when the password is blank, and the requirements
    message exactly when it is neither blank nor meets the policy. *)
Theorem validatePassword_single_line :
  forall password : jsstring,
    forallb dot password = true ->
    (validatePassword password = [] <-> meetsPolicy password = true)
    /\ (validatePassword password = REQUIRED <-> blank password = true)
    /\ (validatePassword password = PASSWORD_REQUIREMENTS_MISMATCH
        <-> blank password = false /\ meetsPolicy password = false).
Proof.
  intros password Hd.
  pose proof (meetsPolicy_not_blank password) as Hnb.
  rewrite validatePassword_cases, (regexPolicy_no_lineTerminator password Hd).
  fold (blank password) in *.
  destruct (blank password), (meetsPolicy password);
    repeat split; intros; try reflexivity; try discriminate;
    try (specialize (Hnb eq_refl); discriminate);
    try (destruct H; discriminate).
Qed.

Lemma validatePassword_single_line_witness :
  forallb dot (lit "abcdefgh") = true
  /\ (validatePassword (lit "abcdefgh") = PASSWORD_REQUIREMENTS_MISMATCH
      <-> blank (lit "abcdefgh") = false
          /\ meetsPolicy (lit "abcdefgh") = false).
Proof.
  split; [reflexivity|].
  apply (validatePassword_single_line (lit "abcdefgh")). reflexivity.
Defined.

(** X4: the two validators agree on blank values: [validatePassword]
    returns Required exactly when [validateEmpty] does; and whatever
    [validatePassword] accepts, [validateEmpty] accepts. *)
Theorem validators_agree_on_blank :
  forall value : jsstring,
    (validatePassword value = REQUIRED <-> validateEmpty value = REQUIRED)
    /\ (validatePassword value = [] -> validateEmpty value = []).
Proof.
  intro value. rewrite validatePassword_cases, validateEmpty_cases.
  destruct (forallb isTrimmable value), (regexPolicy value);
    repeat split; intros; try reflexivity; discriminate.
Qed.

Lemma validators_agree_on_blank_witness :
  validatePassword (lit "Abcdef1!") = []
  /\ validateEmpty (lit "Abcdef1!") = [].
Proof.
  split; [reflexivity|].
  apply (proj2 (validators_agree_on_blank (lit "Abcdef1!"))). reflexivity.
Defined.

(** X5: the confirmation error computed by submit is Required exactly when
    the confirmation is blank, also when it equals the password; it is the
    mismatch message exactly when the confirmation is not blank and differs
    from the password; it is empty exactly when the confirmation is not
    blank and equals the password. *)
Theorem passwordValidateError_cases :
  forall fd : FormData.t,
    (passwordValidateError fd = REQUIRED
     <-> blank (FormData.passwordValidate fd) = true)
    /\ (passwordValidateError fd = PASSWORDS_DO_NOT_MATCH
        <-> blank (FormData.passwordValidate fd) = false
            /\ FormData.password fd <> FormData.passwordValidate fd)
    /\ (passwordValidateError fd = []
        <-> blank (FormData.passwordValidate fd) = false
            /\ FormData.password fd = FormData.passwordValidate fd).
Proof.
  intro fd. unfold passwordValidateError. rewrite blank_trim, negb_involutive.
  destruct (blank (FormData.passwordValidate fd)).
  - repeat split; intros; try reflexivity; try discriminate;
      destruct H; discriminate.
  - destruct (strict_eq (FormData.password fd) (FormData.passwordValidate fd))
      eqn:E; cbn [negb].
    + apply strict_eq_true_iff in E.
      repeat split; intros; try reflexivity; try discriminate; try assumption.
      destruct H. contradiction.
    + apply strict_eq_false_iff in E.
      repeat split; intros; try reflexivity; try discriminate; try assumption.
      destruct H. contradiction.
Qed.

(** ** Further properties of the handlers *)

Lemma observe_app (t1 t2 : list Effect) :
  registrations (t1 ++ t2) = registrations t1 ++ registrations t2
  /\ notifications (t1 ++ t2) = notifications t1 ++ notifications t2
  /\ navigations (t1 ++ t2) = navigations t1 ++ navigations t2.
Proof.
  induction t1 as [|e t IH]; [repeat split|].
  destruct IH as [H1 [H2 H3]].
  destruct e; cbn [app registrations notifications navigations];
    rewrite ?H1, ?H2, ?H3; repeat split.
Qed.

Lemma passesValidation_true_iff (fd : FormData.t) :
  passesValidation fd = true <-> submittable fd.
Proof.
  unfold passesValidation, submittable.
  rewrite negb_true_iff. apply truthy_or_false.
Qed.


(** [handleSubmit] is its synchronous part followed, when a call was
    issued, by the part that runs at the settlement. *)
Lemma handleSubmit_await (register : jsstring -> jsstring -> Settled)
      (s : State) :
  handleSubmit register s
  = handleSubmitSync s
    ++ (if passesValidation (formData s)
        then handleSubmitResume
               (register (FormData.email (formData s))
                         (FormData.password (formData s)))
        else []).
Proof.
  unfold handleSubmit, handleSubmitSync, handleSubmitResume, passesValidation.
  destruct (truthy (emailError (formData s))
            || truthy (passwordError (formData s))
            || truthy (passwordValidateError (formData s)));
    reflexivity.
Qed.

(** X6: [handleSubmit] reads the field values only: its effects are the
    same whatever the error state and [isSubmitting] are, so it has no guard
    of its own against a call in flight; on a valid form it calls [register]
    also when [isSubmitting] is already true. *)
Theorem handleSubmit_reads_formData_only :
  (forall (register : jsstring -> jsstring -> Settled) (fd : FormData.t)
          (e e' : FormErrors.t) (b b' : bool),
      handleSubmit register (mkState fd e b)
      = handleSubmit register (mkState fd e' b'))
  /\ (forall (register : jsstring -> jsstring -> Settled) (fd : FormData.t)
             (e : FormErrors.t),
         submittable fd ->
         registrations (handleSubmit register (mkState fd e true))
         = [(FormData.email fd, FormData.password fd)]).
Proof.
  split.
  - reflexivity.
  - intros register fd e Hv.
    rewrite handleSubmit_await. cbn [formData].
    apply passesValidation_true_iff in Hv. rewrite Hv.
    unfold handleSubmitSync, handleSubmitResume.
    unfold passesValidation in Hv. apply negb_true_iff in Hv.
    cbn [formData]. rewrite Hv.
    destruct (register _ _) as [response|];
      [destruct (messageTruthy response)|]; reflexivity.
Qed.

Lemma handleSubmit_reads_formData_only_witness :
  submittable filledForm
  /\ registrations
       (handleSubmit resolvesPlain (mkState filledForm (errors initial) true))
     = [(FormData.email filledForm, FormData.password filledForm)].
Proof.
  assert (Hv : submittable filledForm) by (repeat split; reflexivity).
  split; [exact Hv|].
  exact (proj2 handleSubmit_reads_formData_only resolvesPlain filledForm
               (errors initial) Hv).
Defined.

(** X7: a change of a field stores the new value in that field and leaves
    the values of the other fields, the errors of the other fields and
    [isSubmitting] as they were; it calls neither [register] nor [toast] nor
    [history]. *)
Theorem validate_frame :
  forall (s : State) (field : Field.t) (value : jsstring),
    let s' := run s (validate s field value) in
    valueOf (formData s') field = value
    /\ errorOf (errors s') field = validateEmpty value
    /\ (forall other : Field.t,
           other <> field ->
           valueOf (formData s') other = valueOf (formData s) other
           /\ errorOf (errors s') other = errorOf (errors s) other)
    /\ isSubmitting s' = isSubmitting s
    /\ registrations (validate s field value) = []
    /\ notifications (validate s field value) = []
    /\ navigations (validate s field value) = [].
Proof.
  intros s field value s'. subst s'. rewrite run_validate.
  destruct field; repeat split;
    destruct other; try reflexivity; contradiction.
Qed.

Lemma validate_frame_witness :
  Field.password <> Field.email
  /\ errorOf (errors (run initial (validate initial Field.email (lit "x"))))
             Field.password
     = errorOf (errors initial) Field.password.
Proof.
  assert (Hne : Field.password <> Field.email) by discriminate.
  split; [exact Hne|].
  exact (proj2 (proj1 (proj2 (proj2 (validate_frame initial Field.email
                                                    (lit "x"))))
                      Field.password Hne)).
Defined.

(** X8: whatever the state and however [register] settles, submit leaves
    the field values alone, calls [register] exactly when the three computed
    errors are empty, then once and with the stored email and password as
    they are, notifies exactly once per call, and navigates only to "/login"
    and only together with the success notification. *)
Theorem handleSubmit_accounting :
  forall (register : jsstring -> jsstring -> Settled) (s : State),
    let tr := handleSubmit register s in
    formData (step register s Submit) = formData s
    /\ registrations tr
       = (if passesValidation (formData s)
          then [(FormData.email (formData s), FormData.password (formData s))]
          else [])
    /\ List.length (notifications tr) = List.length (registrations tr)
    /\ (navigations tr = []
        \/ (navigations tr = [lit "/login"]
            /\ notifications tr = [NSuccess (lit "Registered successfully")])).
Proof.
  intros register s tr. subst tr. unfold step. cbn [handler].
  unfold handleSubmit, passesValidation.
  destruct (truthy (emailError (formData s))
            || truthy (passwordError (formData s))
            || truthy (passwordValidateError (formData s))); cbn [negb].
  - repeat split. left. reflexivity.
  - destruct (register _ _) as [response|];
      [destruct (messageTruthy response)|];
      repeat split; auto.
Qed.


Lemma disabled_of_error (s : State) (field : Field.t) :
  errorOf (errors s) field <> [] -> disabled s = true.
Proof.
  intro H. apply truthy_true_iff in H. unfold disabled.
  destruct field; cbn [errorOf] in H; rewrite H;
    rewrite ?orb_true_r; reflexivity.
Qed.

(** X10: an error on one field survives every change of another field, and
    keeps the button disabled through it. *)
Theorem validate_keeps_other_error :
  forall (s : State) (field other : Field.t) (value : jsstring),
    other <> field ->
    errorOf (errors s) other <> [] ->
    let s' := run s (validate s field value) in
    errorOf (errors s') other = errorOf (errors s) other
    /\ disabled s' = true.
Proof.
  intros s field other value Hne He s'.
  assert (Hk : errorOf (errors s') other = errorOf (errors s) other).
  { subst s'. rewrite run_validate.
    destruct field, other; try reflexivity; contradiction. }
  split; [exact Hk|].
  apply (disabled_of_error s' other). rewrite Hk. exact He.
Qed.

Lemma validate_keeps_other_error_witness :
  let s := mkState (FormData.mk [] [] [])
                   (FormErrors.mk REQUIRED [] None []) false in
  Field.email <> Field.password
  /\ errorOf (errors s) Field.email <> []
  /\ disabled (run s (validate s Field.password (lit "Abc12345!"))) = true.
Proof.
  cbv zeta.
  assert (Hne : Field.email <> Field.password) by discriminate.
  assert (He : errorOf (errors (mkState (FormData.mk [] [] [])
                                        (FormErrors.mk REQUIRED [] None [])
                                        false))
                       Field.email <> []) by discriminate.
  split; [exact Hne|]. split; [exact He|].
  exact (proj2 (@validate_keeps_other_error
                  (mkState (FormData.mk [] [] [])
                           (FormErrors.mk REQUIRED [] None []) false)
                  Field.password Field.email (lit "Abc12345!") Hne He)).
Defined.

(** X11: after a submit rejected because the non-blank confirmation differs
    from the password, changing the password to the confirmation makes the
    two values equal and clears the mismatch field, but the confirmation
    error still holds the mismatch message and the button stays disabled. *)
Theorem password_fix_leaves_button_disabled :
  forall (register : jsstring -> jsstring -> Settled) (s : State),
    blank (FormData.passwordValidate (formData s)) = false ->
    FormData.password (formData s) <> FormData.passwordValidate (formData s) ->
    let s1 := step register s Submit in
    let s2 := run s1 (validate s1 Field.password
                               (FormData.passwordValidate (formData s))) in
    FormData.password (formData s2) = FormData.passwordValidate (formData s2)
    /\ FormErrors.repeatPassword (errors s2) = Some []
    /\ FormErrors.passwordValidate (errors s2) = PASSWORDS_DO_NOT_MATCH
    /\ disabled s2 = true.
Proof.
  intros register s Hb Hne s1 s2.
  assert (Hpv : passwordValidateError (formData s) = PASSWORDS_DO_NOT_MATCH).
  { apply passwordValidateError_mismatch; assumption. }
  assert (Hn : ~ submittable (formData s)).
  { intros [_ [_ H]]. rewrite Hpv in H. discriminate. }
  assert (H1 : s1 = mkState (formData s) (submitErrors (formData s))
                            (isSubmitting s)).
  { subst s1. unfold step. cbn [handler].
    rewrite (handleSubmit_invalid register s Hn). reflexivity. }
  assert (H2 : FormData.password (formData s2)
               = FormData.passwordValidate (formData s2)
               /\ FormErrors.repeatPassword (errors s2) = Some []
               /\ FormErrors.passwordValidate (errors s2)
                  = PASSWORDS_DO_NOT_MATCH).
  { subst s2. rewrite run_validate. rewrite H1.
    cbn [formData errors updateFormData updateErrors updateRepeatPassword
         submitErrors FormData.password FormData.passwordValidate
         FormErrors.repeatPassword FormErrors.passwordValidate].
    assert (E : strict_eq (FormData.passwordValidate (formData s))
                          (FormData.passwordValidate (formData s)) = true)
      by (apply strict_eq_true_iff; reflexivity).
    rewrite E. repeat split. exact Hpv. }
  destruct H2 as [Ha [Hb' Hc]]. repeat split; try assumption.
  apply (disabled_of_error s2 Field.passwordValidate).
  cbn [errorOf]. rewrite Hc. discriminate.
Qed.

Lemma password_fix_leaves_button_disabled_witness :
  let s := mkState (FormData.mk (lit "a@b.com") (lit "Abc12345?")
                                (lit "Abc12345!"))
                   (errors initial) false in
  blank (FormData.passwordValidate (formData s)) = false
  /\ FormData.password (formData s) <> FormData.passwordValidate (formData s)
  /\ disabled
       (run (step rejects s Submit)
            (validate (step rejects s Submit) Field.password
                      (FormData.passwordValidate (formData s))))
     = true.
Proof.
  cbv zeta.
  assert (Hb : blank (lit "Abc12345!") = false) by reflexivity.
  assert (Hne : lit "Abc12345?" <> lit "Abc12345!") by discriminate.
  split; [exact Hb|]. split; [exact Hne|].
  exact (proj2 (proj2 (proj2
           (@password_fix_leaves_button_disabled
              rejects
              (mkState (FormData.mk (lit "a@b.com") (lit "Abc12345?")
                                    (lit "Abc12345!"))
                       (errors initial) false)
              Hb Hne)))).
Defined.

(** X12: typing a non-blank password that [validatePassword] does not
    accept clears the password error, as while typing only [validateEmpty]
    is applied; the following submit sets the requirements message and does
    not call [register]. *)
Theorem weak_password_passes_typing_not_submit :
  forall (register : jsstring -> jsstring -> Settled) (s : State)
         (value : jsstring),
    blank value = false ->
    validatePassword value <> [] ->
    let s1 := run s (validate s Field.password value) in
    FormErrors.password (errors s1) = []
    /\ FormErrors.password (errors (step register s1 Submit))
       = PASSWORD_REQUIREMENTS_MISMATCH
    /\ registrations (handleSubmit register s1) = [].
Proof.
  intros register s value Hb Hw s1.
  assert (Hp : validatePassword value = PASSWORD_REQUIREMENTS_MISMATCH).
  { revert Hw. rewrite validatePassword_cases. fold (blank value).
    rewrite Hb. destruct (regexPolicy value); [congruence|reflexivity]. }
  assert (Hf : FormData.password (formData s1) = value).
  { subst s1. rewrite run_validate. reflexivity. }
  assert (Hn : ~ submittable (formData s1)).
  { intros [_ [H _]]. unfold passwordError in H. rewrite Hf in H.
    contradiction. }
  split; [|split].
  - subst s1. rewrite run_validate.
    cbn [errors updateErrors updateRepeatPassword FormErrors.password].
    apply validateEmpty_not_blank. exact Hb.
  - unfold step. cbn [handler]. rewrite run_handleSubmit_errors.
    cbn [submitErrors FormErrors.password]. unfold passwordError.
    rewrite Hf. exact Hp.
  - rewrite (handleSubmit_invalid register s1 Hn). reflexivity.
Qed.

Lemma weak_password_passes_typing_not_submit_witness :
  blank (lit "weak") = false
  /\ validatePassword (lit "weak") <> []
  /\ FormErrors.password
       (errors (run initial (validate initial Field.password (lit "weak"))))
     = [].
Proof.
  assert (Hb : blank (lit "weak") = false) by reflexivity.
  assert (Hw : validatePassword (lit "weak") <> []) by discriminate.
  split; [exact Hb|]. split; [exact Hw|].
  exact (proj1 (@weak_password_passes_typing_not_submit
                  rejects initial (lit "weak") Hb Hw)).
Defined.

(** X13: handling the same change twice, as [onChange] followed by [onBlur]
    with the value unchanged, gives the state the first handling gave. *)
Theorem validate_idempotent :
  forall (s : State) (field : Field.t) (value : jsstring),
    let s1 := run s (validate s field value) in
    run s1 (validate s1 field value) = s1.
Proof.
  intros s field value s1. subst s1. rewrite !run_validate.
  destruct field; reflexivity.
Qed.

(** ** The page over sequences of events *)

Section PageInvariant.

Variable P : Page -> Prop.
Hypothesis P_step :
  forall (p q : Page) (ev : PageEvent), P p -> pageNext p ev = Some q -> P q.

Lemma pageRun_invariant (evs : list PageEvent) :
  forall p q : Page, P p -> pageRun p evs = Some q -> P q.
Proof.
  induction evs as [|ev rest IH]; intros p q Hp Hr; cbn [pageRun] in Hr.
  - injection Hr as <-. exact Hp.
  - destruct (pageNext p ev) as [p'|] eqn:Hn; [|discriminate].
    apply (IH p' q); [|exact Hr]. eapply P_step; eassumption.
Qed.

End PageInvariant.

Lemma run_handleSubmitSync (s : State) :
  run s (handleSubmitSync s)
  = mkState (formData s) (submitErrors (formData s))
            (if passesValidation (formData s) then true else isSubmitting s).
Proof.
  unfold handleSubmitSync, passesValidation.
  destruct (truthy (emailError (formData s))
            || truthy (passwordError (formData s))
            || truthy (passwordValidateError (formData s))); reflexivity.
Qed.

Lemma observe_handleSubmitSync (s : State) :
  registrations (handleSubmitSync s)
  = (if passesValidation (formData s)
     then [(FormData.email (formData s), FormData.password (formData s))]
     else [])
  /\ notifications (handleSubmitSync s) = []
  /\ navigations (handleSubmitSync s) = [].
Proof.
  unfold handleSubmitSync, passesValidation.
  destruct (truthy (emailError (formData s))
            || truthy (passwordError (formData s))
            || truthy (passwordValidateError (formData s))); repeat split.
Qed.

Lemma run_handleSubmitResume (s : State) (settled : Settled) :
  run s (handleSubmitResume settled)
  = mkState (formData s) (errors s) false.
Proof.
  unfold handleSubmitResume.
  destruct settled as [response|]; [destruct (messageTruthy response)|];
    reflexivity.
Qed.

Lemma observe_handleSubmitResume (settled : Settled) :
  registrations (handleSubmitResume settled) = []
  /\ List.length (notifications (handleSubmitResume settled)) = 1
  /\ List.length (navigations (handleSubmitResume settled))
     = List.length (filter isSuccess
                           (notifications (handleSubmitResume settled)))
  /\ (forall path, In path (navigations (handleSubmitResume settled)) ->
                   path = lit "/login").
Proof.
  unfold handleSubmitResume.
  destruct settled as [response|]; [destruct (messageTruthy response)|];
    repeat split; cbn; intros path H; try contradiction.
  destruct H as [H|[]]. symmetry. exact H.
Qed.

Lemma observe_validate (s : State) (field : Field.t) (value : jsstring) :
  registrations (validate s field value) = []
  /\ notifications (validate s field value) = []
  /\ navigations (validate s field value) = [].
Proof. destruct field; repeat split. Qed.

Lemma disabled_false_idle (s : State) :
  disabled s = false -> isSubmitting s = false.
Proof.
  unfold disabled. rewrite !orb_false_iff. tauto.
Qed.

Lemma pageNext_Edit (p : Page) (field : Field.t) (value : jsstring) :
  pageNext p (Edit field value)
  = Some (mkPage (run (ui p) (validate (ui p) field value)) (pending p)
                 (log p ++ validate (ui p) field value)).
Proof. reflexivity. Qed.

Lemma pageNext_PressSubmit (p : Page) :
  pageNext p PressSubmit
  = if disabled (ui p) then None
    else Some (mkPage (run (ui p) (handleSubmitSync (ui p)))
                      (pending p
                       + List.length (registrations (handleSubmitSync (ui p))))
                      (log p ++ handleSubmitSync (ui p))).
Proof. reflexivity. Qed.

Lemma pageNext_Settle (p : Page) (settled : Settled) :
  pageNext p (Settle settled)
  = match pending p with
    | O => None
    | S n => Some (mkPage (run (ui p) (handleSubmitResume settled)) n
                          (log p ++ handleSubmitResume settled))
    end.
Proof. reflexivity. Qed.

Lemma some_eq (A : Type) (a b : A) : Some a = Some b -> a = b.
Proof. congruence. Qed.

(** The cases of one event, with the next page made explicit. *)
Ltac page_step Hn :=
  match type of Hn with
  | pageNext _ (Edit _ _) = Some _ =>
      rewrite pageNext_Edit in Hn; apply some_eq in Hn; subst
  | pageNext ?p PressSubmit = Some _ =>
      let Hd := fresh "Hd" in
      rewrite pageNext_PressSubmit in Hn;
      destruct (disabled (ui p)) eqn:Hd; [discriminate|];
      apply some_eq in Hn; subst
  | pageNext ?p (Settle _) = Some _ =>
      let Hpd := fresh "Hpd" in
      rewrite pageNext_Settle in Hn;
      destruct (pending p) eqn:Hpd; [discriminate|];
      apply some_eq in Hn; subst
  end.

Lemma pendingMatches_step (p q : Page) (ev : PageEvent) :
  pendingMatches p -> pageNext p ev = Some q -> pendingMatches q.
Proof.
  unfold pendingMatches. intros Hp Hn.
  destruct ev as [field value| |settled]; page_step Hn; cbn [ui pending].
  - rewrite run_validate. cbn [isSubmitting]. exact Hp.
  - apply disabled_false_idle in Hd. rewrite Hd in Hp.
    rewrite run_handleSubmitSync. cbn [isSubmitting].
    rewrite (proj1 (observe_handleSubmitSync (ui p))), Hp, Hd.
    destruct (passesValidation (formData (ui p))); reflexivity.
  - rewrite run_handleSubmitResume. cbn [isSubmitting].
    destruct (isSubmitting (ui p)); congruence.
Qed.

Lemma registrations_app (t1 t2 : list Effect) :
  registrations (t1 ++ t2) = registrations t1 ++ registrations t2.
Proof. apply observe_app. Qed.

Lemma notifications_app (t1 t2 : list Effect) :
  notifications (t1 ++ t2) = notifications t1 ++ notifications t2.
Proof. apply observe_app. Qed.

Lemma navigations_app (t1 t2 : list Effect) :
  navigations (t1 ++ t2) = navigations t1 ++ navigations t2.
Proof. apply observe_app. Qed.

Lemma accounted_step (p q : Page) (ev : PageEvent) :
  accounted p -> pageNext p ev = Some q -> accounted q.
Proof.
  unfold accounted. intros [H1 [H2 H3]] Hn.
  destruct ev as [field value| |settled]; page_step Hn; cbn [log pending];
    rewrite registrations_app, notifications_app, navigations_app.
  - destruct (observe_validate (ui p) field value) as [B1 [B2 B3]].
    rewrite B1, B2, B3, !app_nil_r. auto.
  - destruct (observe_handleSubmitSync (ui p)) as [B1 [B2 B3]].
    rewrite B2, B3, !app_nil_r, length_app. repeat split; auto. lia.
  - destruct (observe_handleSubmitResume settled) as [B1 [B2 [B3 B4]]].
    rewrite B1, app_nil_r, filter_app, !length_app, B2, B3.
    repeat split; try lia.
    intros path Hin. apply in_app_or in Hin. destruct Hin; auto.
Qed.

Lemma registeredValid_step (p q : Page) (ev : PageEvent) :
  registeredValid p -> pageNext p ev = Some q -> registeredValid q.
Proof.
  unfold registeredValid. intros Hp Hn email password.
  destruct ev as [field value| |settled]; page_step Hn; cbn [log];
    rewrite registrations_app.
  - rewrite (proj1 (observe_validate (ui p) field value)), app_nil_r.
    apply Hp.
  - rewrite (proj1 (observe_handleSubmitSync (ui p))).
    intro Hin. apply in_app_or in Hin. destruct Hin as [Hin|Hin]; [auto|].
    destruct (passesValidation (formData (ui p))) eqn:Hv; [|contradiction].
    apply passesValidation_true_iff in Hv. destruct Hv as [He [Hpw _]].
    destruct Hin as [Hin|[]]. injection Hin as <- <-.
    split; [|exact Hpw].
    unfold emailError in He. rewrite validateEmpty_cases in He.
    fold (blank (FormData.email (formData (ui p)))) in He.
    destruct (blank (FormData.email (formData (ui p))));
      [discriminate|reflexivity].
  - rewrite (proj1 (observe_handleSubmitResume settled)), app_nil_r.
    apply Hp.
Qed.

Lemma passwordValidateError_range (fd : FormData.t) :
  passwordValidateError fd = [] \/ passwordValidateError fd = REQUIRED
  \/ passwordValidateError fd = PASSWORDS_DO_NOT_MATCH.
Proof.
  unfold passwordValidateError.
  destruct (negb (truthy (trim (FormData.passwordValidate fd)))); auto.
  destruct (negb (strict_eq (FormData.password fd)
                            (FormData.passwordValidate fd))); auto.
Qed.

Lemma errorsInRange_step (p q : Page) (ev : PageEvent) :
  errorsInRange (errors (ui p)) -> pageNext p ev = Some q ->
  errorsInRange (errors (ui q)).
Proof.
  unfold errorsInRange. intros [H1 [H2 [H3 H4]]] Hn.
  destruct ev as [field value| |settled]; page_step Hn; cbn [ui].
  - rewrite run_validate.
    pose proof (validateEmpty_range value) as Hv.
    destruct field;
      cbn [errors updateErrors updateRepeatPassword FormErrors.email
           FormErrors.password FormErrors.passwordValidate
           FormErrors.repeatPassword];
      repeat split; try tauto;
      match goal with
      | |- context [if ?b then _ else _] => destruct b; auto
      end.
  - rewrite run_handleSubmitSync.
    cbn [errors submitErrors FormErrors.email FormErrors.password
         FormErrors.passwordValidate FormErrors.repeatPassword].
    repeat split; auto.
    + apply validateEmpty_range.
    + apply validatePassword_range.
    + apply passwordValidateError_range.
  - rewrite run_handleSubmitResume. cbn [errors]. auto.
Qed.

(** X14: on the page, from mount and through any sequence of edits, submits
    through the enabled button and settlements, at most one call of
    [register] is pending, [isSubmitting] is true exactly while one is, and
    the button is disabled as long as one is. *)
Theorem page_one_call_at_a_time :
  forall (evs : list PageEvent) (p : Page),
    pageRun mounted evs = Some p ->
    pending p <= 1
    /\ (isSubmitting (ui p) = true <-> pending p = 1)
    /\ (pending p = 1 -> disabled (ui p) = true).
Proof.
  intros evs p Hr.
  assert (H : pendingMatches p).
  { apply (@pageRun_invariant pendingMatches pendingMatches_step evs
                              mounted p); [reflexivity|exact Hr]. }
  unfold pendingMatches in H. unfold disabled.
  destruct (isSubmitting (ui p)); rewrite H; repeat split;
    intros; try lia; try discriminate; reflexivity.
Qed.

Lemma page_one_call_at_a_time_witness :
  pageRun mounted fillAndSubmit = Some submittedPage
  /\ pending submittedPage = 1
  /\ disabled (ui submittedPage) = true.
Proof.
  assert (Hr : pageRun mounted fillAndSubmit = Some submittedPage)
    by reflexivity.
  split; [exact Hr|]. split; [reflexivity|].
  exact (proj2 (proj2 (@page_one_call_at_a_time fillAndSubmit submittedPage
                                               Hr)) eq_refl).
Defined.

(** X15: on the page, after any sequence of events from mount, the calls
    of [register] made so far are as many as the notifications shown plus
    the calls still pending, so that no validation error is ever notified
    and no call is answered twice; the navigations are as many as the
    success notifications, and all go to "/login". *)
Theorem page_accounting :
  forall (evs : list PageEvent) (p : Page),
    pageRun mounted evs = Some p ->
    List.length (registrations (log p))
    = List.length (notifications (log p)) + pending p
    /\ List.length (navigations (log p))
       = List.length (filter isSuccess (notifications (log p)))
    /\ (forall path, In path (navigations (log p)) -> path = lit "/login").
Proof.
  intros evs p Hr.
  apply (@pageRun_invariant accounted accounted_step evs mounted p);
    [|exact Hr].
  repeat split. intros path [].
Qed.

Lemma page_accounting_witness :
  pageRun mounted fillSubmitSettle = Some settledPage
  /\ List.length (registrations (log settledPage))
     = List.length (notifications (log settledPage)) + pending settledPage
  /\ navigations (log settledPage) = [lit "/login"].
Proof.
  assert (Hr : pageRun mounted fillSubmitSettle = Some settledPage)
    by reflexivity.
  split; [exact Hr|]. split; [|reflexivity].
  exact (proj1 (@page_accounting fillSubmitSettle settledPage Hr)).
Defined.

(** X16: on the page, after any sequence of events from mount, the email
    error is empty or Required, the password error is empty, Required or
    the requirements message, the confirmation error is empty, Required or
    the mismatch message, and the mismatch field is absent, empty or the
    mismatch message. *)
Theorem page_errors_in_range :
  forall (evs : list PageEvent) (p : Page),
    pageRun mounted evs = Some p ->
    errorsInRange (errors (ui p)).
Proof.
  intros evs p Hr.
  apply (@pageRun_invariant (fun q => errorsInRange (errors (ui q)))
                            errorsInRange_step evs mounted p);
    [|exact Hr].
  unfold errorsInRange. cbn. repeat split; auto.
Qed.

Lemma page_errors_in_range_witness :
  pageRun mounted fillAndSubmit = Some submittedPage
  /\ errorsInRange (errors (ui submittedPage)).
Proof.
  assert (Hr : pageRun mounted fillAndSubmit = Some submittedPage)
    by reflexivity.
  split; [exact Hr|].
  exact (@page_errors_in_range fillAndSubmit submittedPage Hr).
Defined.

(** X17: on the page, after any sequence of events from mount, every call
    of [register] made so far carried a non-blank email and a password that
    [validatePassword] accepts. *)
Theorem page_registers_valid_credentials :
  forall (evs : list PageEvent) (p : Page),
    pageRun mounted evs = Some p ->
    forall email password : jsstring,
      In (email, password) (registrations (log p)) ->
      blank email = false /\ validatePassword password = [].
Proof.
  intros evs p Hr.
  apply (@pageRun_invariant registeredValid registeredValid_step evs
                            mounted p); [|exact Hr].
  intros email password [].
Qed.

Lemma page_registers_valid_credentials_witness :
  pageRun mounted fillAndSubmit = Some submittedPage
  /\ In (lit "a@b.com", lit "Abc12345!") (registrations (log submittedPage))
  /\ blank (lit "a@b.com") = false
  /\ validatePassword (lit "Abc12345!") = [].
Proof.
  assert (Hr : pageRun mounted fillAndSubmit = Some submittedPage)
    by reflexivity.
  assert (Hin : In (lit "a@b.com", lit "Abc12345!")
                   (registrations (log submittedPage)))
    by (left; reflexivity).
  split; [exact Hr|]. split; [exact Hin|].
  exact (@page_registers_valid_credentials fillAndSubmit submittedPage Hr
                                           _ _ Hin).
Defined.

(** X18: the part of [handleSubmit] that runs when the call settles,
    however it settles and whatever state it finds, keeps the field values
    and the errors of that state, so edits made while the call was pending
    survive, clears [isSubmitting], notifies exactly once and calls
    [register] no more. *)
Theorem handleSubmitResume_frame :
  forall (s : State) (settled : Settled),
    let s' := run s (handleSubmitResume settled) in
    formData s' = formData s
    /\ errors s' = errors s
    /\ isSubmitting s' = false
    /\ List.length (notifications (handleSubmitResume settled)) = 1
    /\ registrations (handleSubmitResume settled) = [].
Proof.
  intros s settled s'. subst s'. rewrite run_handleSubmitResume.
  destruct (observe_handleSubmitResume settled) as [H1 [H2 _]].
  repeat split; assumption.
Qed.

(** X19: after a submit rejected because the non-blank confirmation differs
    from the password, changing the password to a value that still differs
    from the confirmation leaves the mismatch message in the confirmation
    error and sets it in the mismatch field as well: it is held twice. *)
Theorem mismatch_message_twice :
  forall (register : jsstring -> jsstring -> Settled) (s : State)
         (value : jsstring),
    blank (FormData.passwordValidate (formData s)) = false ->
    FormData.password (formData s) <> FormData.passwordValidate (formData s) ->
    value <> FormData.passwordValidate (formData s) ->
    let s1 := step register s Submit in
    let s2 := run s1 (validate s1 Field.password value) in
    FormErrors.repeatPassword (errors s1) = None
    /\ FormErrors.passwordValidate (errors s2) = PASSWORDS_DO_NOT_MATCH
    /\ FormErrors.repeatPassword (errors s2) = Some PASSWORDS_DO_NOT_MATCH.
Proof.
  intros register s value Hb Hne Hv s1 s2.
  assert (Hpv : passwordValidateError (formData s) = PASSWORDS_DO_NOT_MATCH)
    by (apply passwordValidateError_mismatch; assumption).
  assert (Hn : ~ submittable (formData s)).
  { intros [_ [_ H]]. rewrite Hpv in H. discriminate. }
  assert (H1 : s1 = mkState (formData s) (submitErrors (formData s))
                            (isSubmitting s)).
  { subst s1. unfold step. cbn [handler].
    rewrite (handleSubmit_invalid register s Hn). reflexivity. }
  split; [rewrite H1; reflexivity|].
  subst s2. rewrite run_validate, H1.
  cbn [formData errors updateErrors updateRepeatPassword submitErrors
       FormData.passwordValidate FormErrors.repeatPassword
       FormErrors.passwordValidate].
  apply strict_eq_false_iff in Hv. rewrite Hv. split; [exact Hpv|reflexivity].
Qed.

Lemma mismatch_message_twice_witness :
  let s := mkState (FormData.mk (lit "a@b.com") (lit "Abc12345?")
                                (lit "Abc12345!"))
                   (errors initial) false in
  blank (FormData.passwordValidate (formData s)) = false
  /\ FormData.password (formData s) <> FormData.passwordValidate (formData s)
  /\ lit "Abc12345" <> FormData.passwordValidate (formData s)
  /\ FormErrors.repeatPassword
       (errors (run (step rejects s Submit)
                    (validate (step rejects s Submit) Field.password
                              (lit "Abc12345"))))
     = Some PASSWORDS_DO_NOT_MATCH.
Proof.
  cbv zeta.
  assert (Hb : blank (lit "Abc12345!") = false) by reflexivity.
  assert (Hne : lit "Abc12345?" <> lit "Abc12345!") by discriminate.
  assert (Hv : lit "Abc12345" <> lit "Abc12345!") by discriminate.
  split; [exact Hb|]. split; [exact Hne|]. split; [exact Hv|].
  exact (proj2 (proj2
           (@mismatch_message_twice
              rejects
              (mkState (FormData.mk (lit "a@b.com") (lit "Abc12345?")
                                    (lit "Abc12345!"))
                       (errors initial) false)
              (lit "Abc12345") Hb Hne Hv))).
Defined.

(** X20: submit on a form whose three values are blank sets Required on
    the email, the password and the confirmation, drops the mismatch field,
    disables the button and calls nothing. *)
Theorem handleSubmit_blank_form :
  forall (register : jsstring -> jsstring -> Settled) (s : State),
    blank (FormData.email (formData s)) = true ->
    blank (FormData.password (formData s)) = true ->
    blank (FormData.passwordValidate (formData s)) = true ->
    errors (step register s Submit)
    = FormErrors.mk REQUIRED REQUIRED None REQUIRED
    /\ disabled (step register s Submit) = true
    /\ handleSubmit register s
       = [PreventDefault;
          SetErrors (FormErrors.mk REQUIRED REQUIRED None REQUIRED)].
Proof.
  intros register s He Hp Hc.
  assert (Hs : submitErrors (formData s)
               = FormErrors.mk REQUIRED REQUIRED None REQUIRED).
  { unfold submitErrors, emailError, passwordError, passwordValidateError.
    rewrite validateEmpty_cases, validatePassword_cases, blank_trim.
    unfold blank in *. rewrite He, Hp, Hc. reflexivity. }
  assert (Hn : ~ submittable (formData s)).
  { intros [H _]. unfold emailError in H. rewrite validateEmpty_cases in H.
    unfold blank in He. rewrite He in H. discriminate. }
  unfold step. cbn [handler].
  rewrite (handleSubmit_invalid register s Hn), Hs.
  repeat split. unfold disabled. cbn. apply orb_true_r.
Qed.

Lemma handleSubmit_blank_form_witness :
  blank (FormData.email (formData initial)) = true
  /\ blank (FormData.password (formData initial)) = true
  /\ blank (FormData.passwordValidate (formData initial)) = true
  /\ errors (step resolvesPlain initial Submit)
     = FormErrors.mk REQUIRED REQUIRED None REQUIRED.
Proof.
  assert (H : blank [] = true) by reflexivity.
  split; [exact H|]. split; [exact H|]. split; [exact H|].
  exact (proj1 (@handleSubmit_blank_form resolvesPlain initial H H H)).
Defined.

(** X21: for every string, [validatePassword] returns the empty string
    exactly when the string has at least 8 code units, holds a lowercase
    letter, an uppercase letter and a digit before its first line
    terminator, and holds a character outside [A-Za-z0-9] anywhere. *)
Theorem validatePassword_exact :
  forall password : jsstring,
    validatePassword password = []
    <-> (8 <= List.length password
         /\ existsb lower (firstLine password) = true
         /\ existsb upper (firstLine password) = true
         /\ existsb digit (firstLine password) = true
         /\ existsb (complement alnum) password = true).
Proof.
  intro password. rewrite validatePassword_empty_iff. unfold regexPolicy.
  rewrite !andb_true_iff, Nat.leb_le. tauto.
Qed.
